(** * keystone.exception: the error taxonomy and its message builder

    A shallow embedding of [keystone/exception.py].  Python values, the
    exceptions a call can raise, keyword dictionaries and the log are
    written out as data; the classes deriving from [Error] become the
    constructors of [kind], with the class bodies as lookup tables and
    attribute access resolved along the base-class chain; every method
    is a function threading the configuration and the log explicitly.

    The interpreter's own operations ([%] on a mapping, [isinstance]
    against [six.string_types]) and [oslo_utils.encodeutils.safe_decode]
    are an interface, [Runtime]: general results hold for every
    implementation of it, concrete scenarios are evaluated on
    [reference_runtime]. *)

From Stdlib Require Import String Ascii List ZArith Bool DecimalString.
Import ListNotations.
Open Scope string_scope.

(** ** Python values and control flow *)

(** The values that reach the module: [None], text ([six.text_type],
    held as its UTF-8 encoding), byte strings, integers, and an
    exception object standing for "another exception" passed as a
    message, carrying the text [str()] gives for it. *)
Inductive pyval : Type :=
| VNone
| VText (s : string)
| VBytes (b : string)
| VInt (z : Z)
| VExc (text : string).

(** The exception classes the module's [try] statements tell apart, and
    those that cross them; [NotModelled] stands for whatever the
    interpreter does where this development does not follow it. *)
Inductive exn : Type :=
| KeyError (key : string)
| TypeError
| ValueError
| UnicodeDecodeError
| AttributeError
| NotModelled.

Inductive outcome (A : Type) : Type :=
| Ok (a : A)
| Raise (e : exn).
Arguments Ok {A} a.
Arguments Raise {A} e.

Definition bind {A B : Type} (m : outcome A) (f : A -> outcome B)
  : outcome B :=
  match m with
  | Ok a => f a
  | Raise e => Raise e
  end.

Notation "x <- m ;; k" := (bind m (fun x => k))
  (at level 61, m at next level, right associativity).

(** [if v:] *)
Definition truthy (v : pyval) : bool :=
  match v with
  | VNone => false
  | VText s => negb (String.eqb s "")
  | VBytes b => negb (String.eqb b "")
  | VInt z => negb (Z.eqb z 0)
  | VExc _ => true
  end.

(** [**kwargs]: a dictionary with string keys, in insertion order. *)
Definition kwargs : Type := list (string * pyval).

Fixpoint dict_get (key : string) (d : kwargs) : option pyval :=
  match d with
  | [] => None
  | (k, v) :: rest => if String.eqb k key then Some v else dict_get key rest
  end.

(** [d.setdefault(key, default)], for its effect on [d]. *)
Definition setdefault (key : string) (default : pyval) (d : kwargs)
  : kwargs :=
  match dict_get key d with
  | Some _ => d
  | None => (d ++ [(key, default)])%list
  end.

(** The interpreter and library operations the module calls. *)
Class Runtime : Type := {
  (** [msg_format % kwargs] *)
  percent : pyval -> kwargs -> outcome pyval;
  (** [encodeutils.safe_decode(v)] *)
  safe_decode : pyval -> outcome pyval;
  (** [isinstance(v, six.string_types)] *)
  string_types : pyval -> bool
}.

(** [CONF.insecure_debug] and the module-level
    [_FATAL_EXCEPTION_FORMAT_ERRORS], read at each construction. *)
Record config : Type := {
  insecure_debug : bool;
  _FATAL_EXCEPTION_FORMAT_ERRORS : bool
}.

(** The records [LOG.warning] has received, oldest first. *)
Definition log : Type := list string.

(** ** The taxonomy *)

Inductive kind : Type :=
  | Error | ValidationError | URLValidationError | PasswordValidationError
  | PasswordAgeValidationError | SchemaValidationError
  | ValidationTimeStampError | ValidationExpirationError
  | StringLengthExceeded | ValidationSizeError
  | CircularRegionHierarchyError | ForbiddenNotSecurity
  | PasswordVerificationError | RegionDeletionError | PKITokenExpected
  | SecurityError | Unauthorized | PasswordExpired | AuthPluginException
  | MissingGroups | UserDisabled | AccountLocked | AuthMethodNotSupported
  | AdditionalAuthRequired | Forbidden | ForbiddenAction
  | ImmutableAttributeError | CrossBackendNotAllowed
  | InvalidPolicyAssociation | InvalidDomainConfig | NotFound
  | EndpointNotFound | MetadataNotFound | PolicyNotFound
  | PolicyAssociationNotFound | RoleNotFound | ImpliedRoleNotFound
  | InvalidImpliedRole | RoleAssignmentNotFound | RegionNotFound
  | ServiceNotFound | DomainNotFound | ProjectNotFound
  | InvalidParentProject | TokenNotFound | UserNotFound | GroupNotFound
  | MappingNotFound | TrustNotFound | TrustUseLimitReached
  | CredentialNotFound | VersionNotFound | EndpointGroupNotFound
  | IdentityProviderNotFound | ServiceProviderNotFound
  | FederatedProtocolNotFound | PublicIDNotFound | DomainConfigNotFound
  | Conflict | UnexpectedError | TrustConsumeMaximumAttempt
  | CertificateFilesUnavailable | MalformedEndpoint | MappedGroupNotFound
  | MetadataFileError | DirectMappingError | AssignmentTypeCalculationError
  | NotImplemented | Gone | ConfigFileNotFound | KeysNotFound
  | MultipleSQLDriversInConfig | UnsupportedTokenVersionException
  | SAMLSigningError | OAuthHeadersMissingError | TokenlessAuthConfigError
  | UnsupportedDriverVersion.

(** The base class named in each [class K(B):] header; [Error] derives
    from the built-in [Exception], which is outside the taxonomy. *)
Definition parent (k : kind) : option kind :=
  match k with
  | Error => None
  | ValidationError => Some Error
  | URLValidationError => Some ValidationError
  | PasswordValidationError => Some ValidationError
  | PasswordAgeValidationError => Some PasswordValidationError
  | SchemaValidationError => Some ValidationError
  | ValidationTimeStampError => Some Error
  | ValidationExpirationError => Some Error
  | StringLengthExceeded => Some ValidationError
  | ValidationSizeError => Some Error
  | CircularRegionHierarchyError => Some Error
  | ForbiddenNotSecurity => Some Error
  | PasswordVerificationError => Some ForbiddenNotSecurity
  | RegionDeletionError => Some ForbiddenNotSecurity
  | PKITokenExpected => Some ForbiddenNotSecurity
  | SecurityError => Some Error
  | Unauthorized => Some SecurityError
  | PasswordExpired => Some Unauthorized
  | AuthPluginException => Some Unauthorized
  | MissingGroups => Some Unauthorized
  | UserDisabled => Some Unauthorized
  | AccountLocked => Some Unauthorized
  | AuthMethodNotSupported => Some AuthPluginException
  | AdditionalAuthRequired => Some AuthPluginException
  | Forbidden => Some SecurityError
  | ForbiddenAction => Some Forbidden
  | ImmutableAttributeError => Some Forbidden
  | CrossBackendNotAllowed => Some Forbidden
  | InvalidPolicyAssociation => Some Forbidden
  | InvalidDomainConfig => Some Forbidden
  | NotFound => Some Error
  | EndpointNotFound => Some NotFound
  | MetadataNotFound => Some NotFound
  | PolicyNotFound => Some NotFound
  | PolicyAssociationNotFound => Some NotFound
  | RoleNotFound => Some NotFound
  | ImpliedRoleNotFound => Some NotFound
  | InvalidImpliedRole => Some Forbidden
  | RoleAssignmentNotFound => Some NotFound
  | RegionNotFound => Some NotFound
  | ServiceNotFound => Some NotFound
  | DomainNotFound => Some NotFound
  | ProjectNotFound => Some NotFound
  | InvalidParentProject => Some NotFound
  | TokenNotFound => Some NotFound
  | UserNotFound => Some NotFound
  | GroupNotFound => Some NotFound
  | MappingNotFound => Some NotFound
  | TrustNotFound => Some NotFound
  | TrustUseLimitReached => Some Forbidden
  | CredentialNotFound => Some NotFound
  | VersionNotFound => Some NotFound
  | EndpointGroupNotFound => Some NotFound
  | IdentityProviderNotFound => Some NotFound
  | ServiceProviderNotFound => Some NotFound
  | FederatedProtocolNotFound => Some NotFound
  | PublicIDNotFound => Some NotFound
  | DomainConfigNotFound => Some NotFound
  | Conflict => Some Error
  | UnexpectedError => Some SecurityError
  | TrustConsumeMaximumAttempt => Some UnexpectedError
  | CertificateFilesUnavailable => Some UnexpectedError
  | MalformedEndpoint => Some UnexpectedError
  | MappedGroupNotFound => Some UnexpectedError
  | MetadataFileError => Some UnexpectedError
  | DirectMappingError => Some UnexpectedError
  | AssignmentTypeCalculationError => Some UnexpectedError
  | NotImplemented => Some Error
  | Gone => Some Error
  | ConfigFileNotFound => Some UnexpectedError
  | KeysNotFound => Some UnexpectedError
  | MultipleSQLDriversInConfig => Some UnexpectedError
  | UnsupportedTokenVersionException => Some UnexpectedError
  | SAMLSigningError => Some UnexpectedError
  | OAuthHeadersMissingError => Some UnexpectedError
  | TokenlessAuthConfigError => Some ValidationError
  | UnsupportedDriverVersion => Some UnexpectedError
  end.

(** [code = ...] assignments in the class bodies. *)
Definition own_code (k : kind) : option pyval :=
  match k with
  | Error => Some VNone
  | ValidationError => Some (VInt 400)
  | ValidationTimeStampError => Some (VInt 400)
  | ValidationExpirationError => Some (VInt 400)
  | ValidationSizeError => Some (VInt 400)
  | CircularRegionHierarchyError => Some (VInt 400)
  | ForbiddenNotSecurity => Some (VInt 403)
  | Unauthorized => Some (VInt 401)
  | Forbidden => Some (VInt 403)
  | NotFound => Some (VInt 404)
  | Conflict => Some (VInt 409)
  | UnexpectedError => Some (VInt 500)
  | NotImplemented => Some (VInt 501)
  | Gone => Some (VInt 410)
  | _ => None
  end.

(** [title = ...] assignments in the class bodies. *)
Definition own_title (k : kind) : option pyval :=
  match k with
  | Error => Some VNone
  | ValidationError => Some (VText "Bad Request")
  | ValidationTimeStampError => Some (VText "Bad Request")
  | ValidationExpirationError => Some (VText "Bad Request")
  | ValidationSizeError => Some (VText "Bad Request")
  | CircularRegionHierarchyError => Some (VText "Bad Request")
  | ForbiddenNotSecurity => Some (VText "Forbidden")
  | Unauthorized => Some (VText "Unauthorized")
  | Forbidden => Some (VText "Forbidden")
  | NotFound => Some (VText "Not Found")
  | Conflict => Some (VText "Conflict")
  | UnexpectedError => Some (VText "Internal Server Error")
  | NotImplemented => Some (VText "Not Implemented")
  | Gone => Some (VText "Gone")
  | _ => None
  end.

(** [message_format = ...] assignments in the class bodies ([_] taken as
    the identity: the untranslated catalogue). *)
Definition own_message_format (k : kind) : option pyval :=
  match k with
  | Error => Some VNone
  | ValidationError => Some (VText ("Expecting to find %(attribute)s in %(target)s - the "
        ++ "server could not comply with the request since it is "
        ++ "either malformed or otherwise incorrect. The client is "
        ++ "assumed to be in error."))
  | URLValidationError => Some (VText "Cannot create an endpoint with an invalid URL: %(url)s")
  | PasswordValidationError => Some (VText "Password validation error: %(detail)s")
  | PasswordAgeValidationError => Some (VText ("You cannot change your password at this time due to the "
        ++ "minimum password age. Once you change your password, it "
        ++ "must be used for %(min_age_days)d day(s) before it can be "
        ++ "changed. Please try again in %(days_left)d day(s) or "
        ++ "contact your administrator to reset your password."))
  | SchemaValidationError => Some (VText "%(detail)s")
  | ValidationTimeStampError => Some (VText ("Timestamp not in expected format. The server could not "
        ++ "comply with the request since it is either malformed or "
        ++ "otherwise incorrect. The client is assumed to be in error."))
  | ValidationExpirationError => Some (VText ("The 'expires_at' must not be before now. The server could "
        ++ "not comply with the request since it is either malformed "
        ++ "or otherwise incorrect. The client is assumed to be in "
        ++ "error."))
  | StringLengthExceeded => Some (VText ("String length exceeded.The length of string '%(string)s' "
        ++ "exceeded the limit of column %(type)s(CHAR(%(length)d))."))
  | ValidationSizeError => Some (VText ("Request attribute %(attribute)s must be less than or "
        ++ "equal to %(size)i. The server could not comply with the "
        ++ "request because the attribute size is invalid (too "
        ++ "large). The client is assumed to be in error."))
  | CircularRegionHierarchyError => Some (VText ("The specified parent region %(parent_region_id)s would "
        ++ "create a circular region hierarchy."))
  | PasswordVerificationError => Some (VText ("The password length must be less than or equal to "
        ++ "%(size)i. The server could not comply with the request "
        ++ "because the password is invalid."))
  | RegionDeletionError => Some (VText ("Unable to delete region %(region_id)s because it or its "
        ++ "child regions have associated endpoints."))
  | PKITokenExpected => Some (VText ("The certificates you requested are not available. It is "
        ++ "likely that this server does not use PKI tokens otherwise "
        ++ "this is the result of misconfiguration."))
  | Unauthorized => Some (VText "The request you have made requires authentication.")
  | PasswordExpired => Some (VText ("The password is expired and needs to be reset by an "
        ++ "administrator for user: %(user_id)s"))
  | AuthPluginException => Some (VText "Authentication plugin error.")
  | MissingGroups => Some (VText ("Unable to find valid groups while using mapping "
        ++ "%(mapping_id)s"))
  | UserDisabled => Some (VText "The account is disabled for user: %(user_id)s")
  | AccountLocked => Some (VText "The account is locked for user: %(user_id)s")
  | AuthMethodNotSupported => Some (VText "Attempted to authenticate with an unsupported method.")
  | AdditionalAuthRequired => Some (VText "Additional authentications steps required.")
  | Forbidden => Some (VText "You are not authorized to perform the requested action.")
  | ForbiddenAction => Some (VText ("You are not authorized to perform the requested action: "
        ++ "%(action)s"))
  | ImmutableAttributeError => Some (VText ("Could not change immutable attribute(s) '%(attributes)s' "
        ++ "in target %(target)s"))
  | CrossBackendNotAllowed => Some (VText ("Group membership across backend boundaries is not "
        ++ "allowed, group in question is %(group_id)s, user is "
        ++ "%(user_id)s"))
  | InvalidPolicyAssociation => Some (VText ("Invalid mix of entities for policy association - only "
        ++ "Endpoint, Service or Region+Service allowed. Request was "
        ++ "- Endpoint: %(endpoint_id)s, Service: %(service_id)s, "
        ++ "Region: %(region_id)s"))
  | InvalidDomainConfig => Some (VText "Invalid domain specific configuration: %(reason)s")
  | NotFound => Some (VText "Could not find: %(target)s")
  | EndpointNotFound => Some (VText "Could not find endpoint: %(endpoint_id)s")
  | MetadataNotFound => Some (VText ("An unhandled exception has occurred: Could not find "
        ++ "metadata."))
  | PolicyNotFound => Some (VText "Could not find policy: %(policy_id)s")
  | PolicyAssociationNotFound => Some (VText "Could not find policy association")
  | RoleNotFound => Some (VText "Could not find role: %(role_id)s")
  | ImpliedRoleNotFound => Some (VText "%(prior_role_id)s does not imply %(implied_role_id)s")
  | InvalidImpliedRole => Some (VText "%(role_id)s cannot be an implied roles")
  | RoleAssignmentNotFound => Some (VText ("Could not find role assignment with role: %(role_id)s, "
        ++ "user or group: %(actor_id)s, project or domain: "
        ++ "%(target_id)s"))
  | RegionNotFound => Some (VText "Could not find region: %(region_id)s")
  | ServiceNotFound => Some (VText "Could not find service: %(service_id)s")
  | DomainNotFound => Some (VText "Could not find domain: %(domain_id)s")
  | ProjectNotFound => Some (VText "Could not find project: %(project_id)s")
  | InvalidParentProject => Some (VText "Cannot create project with parent: %(project_id)s")
  | TokenNotFound => Some (VText "Could not find token: %(token_id)s")
  | UserNotFound => Some (VText "Could not find user: %(user_id)s")
  | GroupNotFound => Some (VText "Could not find group: %(group_id)s")
  | MappingNotFound => Some (VText "Could not find mapping: %(mapping_id)s")
  | TrustNotFound => Some (VText "Could not find trust: %(trust_id)s")
  | TrustUseLimitReached => Some (VText "No remaining uses for trust: %(trust_id)s")
  | CredentialNotFound => Some (VText "Could not find credential: %(credential_id)s")
  | VersionNotFound => Some (VText "Could not find version: %(version)s")
  | EndpointGroupNotFound => Some (VText "Could not find Endpoint Group: %(endpoint_group_id)s")
  | IdentityProviderNotFound => Some (VText "Could not find Identity Provider: %(idp_id)s")
  | ServiceProviderNotFound => Some (VText "Could not find Service Provider: %(sp_id)s")
  | FederatedProtocolNotFound => Some (VText ("Could not find federated protocol %(protocol_id)s for "
        ++ "Identity Provider: %(idp_id)s"))
  | PublicIDNotFound => Some (VText "%(id)s")
  | DomainConfigNotFound => Some (VText ("Could not find %(group_or_option)s in domain "
        ++ "configuration for domain %(domain_id)s"))
  | Conflict => Some (VText ("Conflict occurred attempting to store %(type)s - "
        ++ "%(details)s"))
  | UnexpectedError => Some (VText ("An unexpected error prevented the server from fulfilling "
        ++ "your request."))
  | DirectMappingError => Some (VText ("Local section in mapping %(mapping_id)s refers to a "
        ++ "remote match that doesn't exist (e.g. {0} in a local "
        ++ "section)."))
  | NotImplemented => Some (VText "The action you have requested has not been implemented.")
  | Gone => Some (VText ("The service you have requested is no longer available on "
        ++ "this server."))
  | TokenlessAuthConfigError => Some (VText ("Could not determine Identity Provider ID. The "
        ++ "configuration option %(issuer_attribute)s was not found "
        ++ "in the request environment."))
  | _ => None
  end.

(** [debug_message_format = ...] assignments in the class bodies. *)
Definition own_debug_message_format (k : kind) : option pyval :=
  match k with
  | UnexpectedError => Some (VText ("An unexpected error prevented the server from fulfilling "
        ++ "your request: %(exception)s"))
  | TrustConsumeMaximumAttempt => Some (VText ("Unable to consume trust %(trust_id)s, unable to acquire "
        ++ "lock."))
  | CertificateFilesUnavailable => Some (VText ("Expected signing certificates are not available on the "
        ++ "server. Please check Keystone configuration."))
  | MalformedEndpoint => Some (VText ("Malformed endpoint URL (%(endpoint)s), see ERROR log for "
        ++ "details."))
  | MappedGroupNotFound => Some (VText ("Group %(group_id)s returned by mapping %(mapping_id)s was "
        ++ "not found in the backend."))
  | MetadataFileError => Some (VText "Error while reading metadata file, %(reason)s")
  | AssignmentTypeCalculationError => Some (VText ("Unexpected combination of grant attributes - User: "
        ++ "%(user_id)s, Group: %(group_id)s, Project: "
        ++ "%(project_id)s, Domain: %(domain_id)s"))
  | ConfigFileNotFound => Some (VText ("The Keystone configuration file %(config_file)s could not "
        ++ "be found."))
  | KeysNotFound => Some (VText ("No encryption keys found; run keystone-manage "
        ++ "fernet_setup to bootstrap one."))
  | MultipleSQLDriversInConfig => Some (VText ("The Keystone domain-specific configuration has specified "
        ++ "more than one SQL driver (only one is permitted): "
        ++ "%(source)s."))
  | UnsupportedTokenVersionException => Some (VText "Token version is unrecognizable or unsupported.")
  | SAMLSigningError => Some (VText ("Unable to sign SAML assertion. It is likely that this "
        ++ "server does not have xmlsec1 installed, or this is the "
        ++ "result of misconfiguration. Reason %(reason)s"))
  | OAuthHeadersMissingError => Some (VText ("No Authorization headers found, cannot proceed with OAuth "
        ++ "related calls, if running under HTTPd or Apache, ensure "
        ++ "WSGIPassAuthorization is set to On."))
  | UnsupportedDriverVersion => Some (VText "%(driver)s is not supported driver version")
  | _ => None
  end.

(** Attribute and method lookup on an instance of [k] walks [k], its
    base, the base's base, ... (single inheritance throughout). *)
Fixpoint mro_from (fuel : nat) (k : kind) : list kind :=
  k :: match fuel with
       | O => []
       | S fuel' =>
           match parent k with
           | Some p => mro_from fuel' p
           | None => []
           end
       end.

Definition mro (k : kind) : list kind := mro_from 8 k.

Fixpoint first_defined {A : Type} (own : kind -> option A)
    (classes : list kind) : option A :=
  match classes with
  | [] => None
  | c :: rest =>
      match own c with
      | Some a => Some a
      | None => first_defined own rest
      end
  end.

(** [self.<attr>] for [self] of class [k]; [None] is Python's
    [AttributeError]. *)
Definition getattr {A : Type} (own : kind -> option A) (k : kind)
  : option A :=
  first_defined own (mro k).

Definition attr_or_None (own : kind -> option pyval) (k : kind) : pyval :=
  match getattr own k with
  | Some v => v
  | None => VNone
  end.

Definition code : kind -> pyval := attr_or_None own_code.
Definition title : kind -> pyval := attr_or_None own_title.
Definition message_format : kind -> pyval := attr_or_None own_message_format.

(** [SecurityError.amendment] *)
Definition amendment : string :=
  "(Disable insecure_debug mode to suppress these details.)".

(** The classes whose body defines [_build_message]. *)
Inductive build_message_owner : Type :=
| ByError
| BySecurityError
| ByUnexpectedError.

Definition own__build_message (k : kind) : option build_message_owner :=
  match k with
  | Error => Some ByError
  | SecurityError => Some BySecurityError
  | UnexpectedError => Some ByUnexpectedError
  | _ => None
  end.

(** Only [SecurityError] defines [__deepcopy__]. *)
Definition own___deepcopy__ (k : kind) : option unit :=
  match k with
  | SecurityError => Some tt
  | _ => None
  end.

(** [isinstance(self, SecurityError)] *)
Definition is_SecurityError (k : kind) : bool :=
  existsb (fun c => match c with SecurityError => true | _ => false end)
          (mro k).

(** [isinstance(self, UnexpectedError)] *)
Definition is_UnexpectedError (k : kind) : bool :=
  existsb (fun c => match c with UnexpectedError => true | _ => false end)
          (mro k).

(** An error instance: its class and [args[0]], the message fixed by
    [__init__]. *)
Record instance : Type := {
  kind_of : kind;
  message : pyval
}.

(** ** The module's functions *)

Section Code.
Context {R : Runtime}.

(** The dictionary comprehension
    [{k: encodeutils.safe_decode(v) for k, v in kwargs.items()}]. *)
Fixpoint safe_decode_items (kw : kwargs) : outcome kwargs :=
  match kw with
  | [] => Ok []
  | (k, v) :: rest =>
      v' <- safe_decode v ;;
      rest' <- safe_decode_items rest ;;
      Ok ((k, v') :: rest')
  end.

Definition _format_with_unicode_kwargs (msg_format : pyval) (kw : kwargs)
  : outcome pyval :=
  match percent msg_format kw with
  | Raise UnicodeDecodeError =>
      match safe_decode_items kw with
      | Raise UnicodeDecodeError => Ok msg_format
      | Raise e => Raise e
      | Ok kw' => percent msg_format kw'
      end
  | r => r
  end.

Definition Error__build_message (self : kind) (message : pyval)
    (kw : kwargs) : outcome pyval :=
  if truthy message then Ok message
  else _format_with_unicode_kwargs (message_format self) kw.

Definition SecurityError__build_message (cfg : config) (self : kind)
    (message : pyval) (kw : kwargs) : outcome pyval :=
  if truthy message && insecure_debug cfg then
    message' <- (if string_types message
                 then _format_with_unicode_kwargs message kw
                 else Ok message) ;;
    percent (VText "%(message)s %(amendment)s")
            [("message", message'); ("amendment", VText amendment)]
  else _format_with_unicode_kwargs (message_format self) kw.

Definition UnexpectedError__build_message (cfg : config) (self : kind)
    (message : pyval) (kw : kwargs) : outcome pyval :=
  let kw := setdefault "exception" (VText "") kw in
  message' <- (if truthy message then Ok message
               else match getattr own_debug_message_format self with
                    | Some d => Ok d
                    | None => Raise AttributeError
                    end) ;;
  SecurityError__build_message cfg self message' kw.

(** [self._build_message(message, **kwargs)] *)
Definition _build_message (cfg : config) (self : kind) (message : pyval)
    (kw : kwargs) : outcome pyval :=
  match getattr own__build_message self with
  | Some ByError => Error__build_message self message kw
  | Some BySecurityError => SecurityError__build_message cfg self message kw
  | Some ByUnexpectedError =>
      UnexpectedError__build_message cfg self message kw
  | None => Raise AttributeError
  end.

Definition missing_kwargs_warning : string :=
  "missing exception kwargs (programmer error)".

(** [Error.__init__(self, message=None, **kwargs)]: the instance, or the
    exception that leaves the constructor, and the log afterwards.  The
    three classes that define an [__init__] of their own
    ([AuthPluginException], [AuthMethodNotSupported],
    [AdditionalAuthRequired]) reach it through [super()] and then attach
    their [authentication] payload; [AdditionalAuthRequired] always
    passes [message=None]. *)
Definition Error___init__ (cfg : config) (self : kind) (message : pyval)
    (kw : kwargs) (lg : log) : outcome instance * log :=
  match _build_message cfg self message kw with
  | Ok m => (Ok {| kind_of := self; message := m |}, lg)
  | Raise (KeyError key) =>
      if _FATAL_EXCEPTION_FORMAT_ERRORS cfg
      then (Raise (KeyError key), lg)
      else (Ok {| kind_of := self; message := message_format self |},
            (lg ++ [missing_kwargs_warning])%list)
  | Raise e => (Raise e, lg)
  end.

End Code.

(** [SecurityError.__deepcopy__(self)]: the method takes [self] and
    nothing else; [args] are the further positional arguments of a call
    [x.__deepcopy__(...)], and a call that passes any fails to bind. *)
Definition SecurityError___deepcopy__ {A : Type} (self : instance)
    (args : list A) : outcome instance :=
  match args with
  | [] => Ok self
  | _ :: _ => Raise TypeError
  end.

(** [copy.deepcopy]'s memo dictionary, object identity to copy. *)
Definition memo : Type := list (nat * instance).

(** [copy.deepcopy(x, memo)] on an error instance: the class's
    [__deepcopy__], when it has one, is called as [copier(memo)]; the
    reconstruction through [__reduce_ex__] taken otherwise is not
    modelled. *)
Definition copy_deepcopy (x : instance) (m : memo) : outcome instance :=
  match getattr own___deepcopy__ (kind_of x) with
  | Some _ => SecurityError___deepcopy__ x [m]
  | None => Raise NotModelled
  end.

(** ** A reference runtime

    [%] on text templates as on Python 2.7, restricted to the directives
    the module's templates use: [%%], [%(key)s], [%(key)d], [%(key)i].
    A byte string substituted by [%s] into text is decoded as ASCII,
    which is where [UnicodeDecodeError] comes from.  Directives outside
    this fragment (flags, widths, positional conversions, other
    conversion types) and [%] on a byte-string template answer
    [NotModelled]; nothing below is stated about them. *)

Definition byte_of (c : ascii) : N := N_of_ascii c.

Fixpoint bytes_of (s : string) : list N :=
  match s with
  | EmptyString => []
  | String c rest => byte_of c :: bytes_of rest
  end.

Definition is_ascii (bs : list N) : bool :=
  forallb (fun b => N.ltb b 128) bs.

Definition continuation (b : N) : bool := N.leb 128 b && N.leb b 191.
Definition between (lo hi b : N) : bool := N.leb lo b && N.leb b hi.

(** Well-formed UTF-8 (RFC 3629): shortest forms only, no surrogates,
    nothing above U+10FFFF. *)
Fixpoint utf8_valid (bs : list N) : bool :=
  match bs with
  | [] => true
  | b0 :: r0 =>
      if N.ltb b0 128 then utf8_valid r0
      else
        match r0 with
        | [] => false
        | b1 :: r1 =>
            if between 194 223 b0 then continuation b1 && utf8_valid r1
            else
              match r1 with
              | [] => false
              | b2 :: r2 =>
                  if between 224 239 b0 then
                    (if N.eqb b0 224 then between 160 191 b1
                     else if N.eqb b0 237 then between 128 159 b1
                     else continuation b1)
                    && continuation b2 && utf8_valid r2
                  else
                    match r2 with
                    | [] => false
                    | b3 :: r3 =>
                        between 240 244 b0
                        && (if N.eqb b0 240 then between 144 191 b1
                            else if N.eqb b0 244 then between 128 143 b1
                            else continuation b1)
                        && continuation b2 && continuation b3
                        && utf8_valid r3
                    end
              end
        end
  end.

Inductive encoding : Type := ascii_codec | utf_8.

(** [b.decode(enc, 'strict')]; text is held as its UTF-8 encoding, so a
    successful decode keeps the bytes. *)
Definition decode (enc : encoding) (b : string) : outcome string :=
  let ok := match enc with
            | ascii_codec => is_ascii (bytes_of b)
            | utf_8 => utf8_valid (bytes_of b)
            end in
  if ok then Ok b else Raise UnicodeDecodeError.

(** [encodeutils.safe_decode(text)] with its default arguments, on an
    interpreter whose default encoding is ASCII: text is returned as it
    is, a byte string is decoded with the default encoding and, failing
    that, as UTF-8; anything else is a [TypeError]. *)
Definition reference_safe_decode (v : pyval) : outcome pyval :=
  match v with
  | VText s => Ok (VText s)
  | VBytes b =>
      match decode ascii_codec b with
      | Raise UnicodeDecodeError => s <- decode utf_8 b ;; Ok (VText s)
      | Raise e => Raise e
      | Ok s => Ok (VText s)
      end
  | _ => Raise TypeError
  end.

Definition decimal (z : Z) : string := NilZero.string_of_int (Z.to_int z).

(** What [%s] inserts into a text template. *)
Definition conv_s (v : pyval) : outcome string :=
  match v with
  | VNone => Ok "None"
  | VText s => Ok s
  | VBytes b => decode ascii_codec b
  | VInt z => Ok (decimal z)
  | VExc text => Ok text
  end.

(** What [%d] and [%i] insert. *)
Definition conv_d (v : pyval) : outcome string :=
  match v with
  | VInt z => Ok (decimal z)
  | _ => Raise TypeError
  end.

(** Where the scan of a template stands. *)
Inductive scan_state : Type :=
| Literal
| AfterPercent
| InKey (depth : nat) (key : string)
| AfterKey (v : pyval).

Definition prepend (c : ascii) (r : outcome string) : outcome string :=
  s <- r ;; Ok (String c s).

Definition snoc (s : string) (c : ascii) : string := s ++ String c "".

(** Left to right over the template; a directive that fails raises
    before anything to its right is looked at. *)
Fixpoint scan (kw : kwargs) (st : scan_state) (fmt : string)
  : outcome string :=
  match fmt with
  | EmptyString =>
      match st with
      | Literal => Ok ""
      | _ => Raise ValueError
      end
  | String c rest =>
      match st with
      | Literal =>
          if Ascii.eqb c "%" then scan kw AfterPercent rest
          else prepend c (scan kw Literal rest)
      | AfterPercent =>
          if Ascii.eqb c "%" then prepend "%" (scan kw Literal rest)
          else if Ascii.eqb c "(" then scan kw (InKey 0 "") rest
          else Raise NotModelled
      | InKey depth key =>
          if Ascii.eqb c "(" then scan kw (InKey (S depth) (snoc key c)) rest
          else if Ascii.eqb c ")" then
            match depth with
            | S depth' => scan kw (InKey depth' (snoc key c)) rest
            | O =>
                match dict_get key kw with
                | Some v => scan kw (AfterKey v) rest
                | None => Raise (KeyError key)
                end
            end
          else scan kw (InKey depth (snoc key c)) rest
      | AfterKey v =>
          if Ascii.eqb c "s" then
            s <- conv_s v ;; r <- scan kw Literal rest ;; Ok (s ++ r)
          else if Ascii.eqb c "d" || Ascii.eqb c "i" then
            s <- conv_d v ;; r <- scan kw Literal rest ;; Ok (s ++ r)
          else Raise NotModelled
      end
  end.

Definition reference_percent (msg_format : pyval) (kw : kwargs)
  : outcome pyval :=
  match msg_format with
  | VText fmt => s <- scan kw Literal fmt ;; Ok (VText s)
  | VBytes _ => Raise NotModelled
  | VNone | VInt _ | VExc _ => Raise TypeError
  end.

(** [six.string_types] on Python 2 is [basestring]: text and byte
    strings. *)
Definition reference_string_types (v : pyval) : bool :=
  match v with
  | VText _ | VBytes _ => true
  | _ => false
  end.

#[export] Instance reference_runtime : Runtime := {
  percent := reference_percent;
  safe_decode := reference_safe_decode;
  string_types := reference_string_types
}.

(** [needle in haystack] *)
Fixpoint is_prefix (p s : string) : bool :=
  match p, s with
  | EmptyString, _ => true
  | String a p', String b s' => Ascii.eqb a b && is_prefix p' s'
  | String _ _, EmptyString => false
  end.

Fixpoint contains (haystack needle : string) : bool :=
  is_prefix needle haystack
  || match haystack with
     | EmptyString => false
     | String _ rest => contains rest needle
     end.

Definition cfg_production : config :=
  {| insecure_debug := false; _FATAL_EXCEPTION_FORMAT_ERRORS := false |}.
Definition cfg_insecure_debug : config :=
  {| insecure_debug := true; _FATAL_EXCEPTION_FORMAT_ERRORS := false |}.
Definition cfg_strict : config :=
  {| insecure_debug := false; _FATAL_EXCEPTION_FORMAT_ERRORS := true |}.

Definition debug_message_format : kind -> pyval :=
  attr_or_None own_debug_message_format.

(** The dictionary the formatter is handed: [UnexpectedError._build_message]
    first gives ["exception"] a default. *)
Definition effective_kwargs (k : kind) (kw : kwargs) : kwargs :=
  if is_UnexpectedError k then setdefault "exception" (VText "") kw else kw.

(** The names a template refers to, in order of occurrence, when each of
    its directives is [%%] or [%(name)s]; [None] for any other template. *)
Fixpoint names_from (st : scan_state) (fmt : string)
  : option (list string) :=
  match fmt with
  | EmptyString =>
      match st with
      | Literal => Some []
      | _ => None
      end
  | String c rest =>
      match st with
      | Literal =>
          if Ascii.eqb c "%" then names_from AfterPercent rest
          else names_from Literal rest
      | AfterPercent =>
          if Ascii.eqb c "%" then names_from Literal rest
          else if Ascii.eqb c "(" then names_from (InKey 0 "") rest
          else None
      | InKey depth key =>
          if Ascii.eqb c "(" then
            names_from (InKey (S depth) (snoc key c)) rest
          else if Ascii.eqb c ")" then
            match depth with
            | S depth' => names_from (InKey depth' (snoc key c)) rest
            | O => option_map (cons key) (names_from (AfterKey VNone) rest)
            end
          else names_from (InKey depth (snoc key c)) rest
      | AfterKey _ =>
          if Ascii.eqb c "s" then names_from Literal rest else None
      end
  end.

Definition placeholders (fmt : string) : option (list string) :=
  names_from Literal fmt.

Definition is_text (v : pyval) : bool :=
  match v with
  | VText _ => true
  | _ => false
  end.

(** Every value of the dictionary is text. *)
Definition text_values (kw : kwargs) : bool :=
  forallb (fun kv => is_text (snd kv)) kw.

(** Every name of [names] is a key of the dictionary. *)
Definition supplies (kw : kwargs) (names : list string) : bool :=
  forallb (fun n => match dict_get n kw with
                    | Some _ => true
                    | None => false
                    end) names.

Definition template_placeholders (tmpl : pyval) : option (list string) :=
  match tmpl with
  | VText t => placeholders t
  | _ => None
  end.

(** The templates an instance of [k] may render use [%(name)s] only. *)
Definition simple_templates (k : kind) : bool :=
  match template_placeholders (message_format k) with
  | Some _ =>
      if is_UnexpectedError k then
        match template_placeholders (debug_message_format k) with
        | Some _ => true
        | None => false
        end
      else true
  | None => false
  end.

(** [%s] accepts the value: anything but a byte string with a byte
    outside ASCII. *)
Definition renders (v : pyval) : bool :=
  match conv_s v with
  | Ok _ => true
  | Raise _ => false
  end.

Definition renderable (kw : kwargs) : bool :=
  forallb (fun kv => renders (snd kv)) kw.

(** Every value of the dictionary is text or a byte string. *)
Definition string_values (kw : kwargs) : bool :=
  forallb (fun kv => reference_string_types (snd kv)) kw.

(** ** Calls and the constructors with a payload *)

(** [issubclass(type(self), base)] *)
Definition kind_eq_dec : forall a b : kind, {a = b} + {a <> b}.
Proof. decide equality. Defined.

Definition issubclass (k base : kind) : bool :=
  existsb (fun c => if kind_eq_dec c base then true else false) (mro k).

Fixpoint dict_remove (key : string) (d : kwargs) : kwargs :=
  match d with
  | [] => []
  | (k, v) :: rest =>
      if String.eqb k key then dict_remove key rest
      else (k, v) :: dict_remove key rest
  end.

(** Binding a call of [f] with positional [args] and keyword [kwargs]
    to a signature
    [(self, name=None, **kwargs)]: the value of the named parameter and
    the keyword arguments left over.  A second positional argument, or
    the parameter given both by position and by keyword, is a
    [TypeError] at the call. *)
Definition bind_optional (name : string) (args : list pyval) (kw : kwargs)
  : outcome (pyval * kwargs) :=
  match args with
  | [] =>
      match dict_get name kw with
      | Some v => Ok (v, dict_remove name kw)
      | None => Ok (VNone, kw)
      end
  | [v] =>
      match dict_get name kw with
      | Some _ => Raise TypeError
      | None => Ok (v, kw)
      end
  | _ :: _ :: _ => Raise TypeError
  end.

(** The [authentication] attribute the plugin errors carry: [{}],
    [{'methods': CONF.auth.methods}], or the caller's [auth_response]. *)
Inductive authentication_payload : Type :=
| EmptyPayload
| MethodsPayload (methods : list string)
| ResponsePayload (auth_response : pyval).

(** An object as a constructor leaves it: the error, and the
    [authentication] attribute when the class sets one. *)
Record error_object : Type := {
  error : instance;
  authentication : option authentication_payload
}.

Section Constructors.
Context {R : Runtime}.

(** [CONF.auth.methods] *)
Variable auth_methods : list string.

(** A call of [Error.__init__] with positional [args] and keyword
    [kwargs]. *)
Definition call_Error___init__ (cfg : config) (self : kind)
    (args : list pyval) (kw : kwargs) (lg : log) : outcome instance * log :=
  match bind_optional "message" args kw with
  | Ok (message, kw') => Error___init__ cfg self message kw' lg
  | Raise e => (Raise e, lg)
  end.

(** [AuthPluginException.__init__], declared with [self], [*args] and
    [**kwargs]. *)
Definition AuthPluginException___init__ (cfg : config) (self : kind)
    (args : list pyval) (kw : kwargs) (lg : log)
  : outcome error_object * log :=
  match call_Error___init__ cfg self args kw lg with
  | (Ok i, lg') =>
      (Ok {| error := i; authentication := Some EmptyPayload |}, lg')
  | (Raise e, lg') => (Raise e, lg')
  end.

(** [AuthMethodNotSupported.__init__], declared with [self], [*args]
    and [**kwargs]. *)
Definition AuthMethodNotSupported___init__ (cfg : config) (self : kind)
    (args : list pyval) (kw : kwargs) (lg : log)
  : outcome error_object * log :=
  match AuthPluginException___init__ cfg self args kw lg with
  | (Ok o, lg') =>
      (Ok {| error := error o;
             authentication := Some (MethodsPayload auth_methods) |}, lg')
  | (Raise e, lg') => (Raise e, lg')
  end.

(** [AdditionalAuthRequired.__init__(self, auth_response=None, **kwargs)]:
    the parent is called as [__init__(message=None, **kwargs)], which
    cannot be formed when [kwargs] names [message] too. *)
Definition AdditionalAuthRequired___init__ (cfg : config) (self : kind)
    (args : list pyval) (kw : kwargs) (lg : log)
  : outcome error_object * log :=
  match bind_optional "auth_response" args kw with
  | Raise e => (Raise e, lg)
  | Ok (auth_response, kw') =>
      match dict_get "message" kw' with
      | Some _ => (Raise TypeError, lg)
      | None =>
          match AuthPluginException___init__
                  cfg self [] (("message", VNone) :: kw') lg with
          | (Ok o, lg') =>
              (Ok {| error := error o;
                     authentication :=
                       Some (ResponsePayload auth_response) |}, lg')
          | (Raise e, lg') => (Raise e, lg')
          end
      end
  end.

(** The classes whose body defines [__init__]. *)
Inductive init_owner : Type :=
| InitError
| InitAuthPluginException
| InitAuthMethodNotSupported
| InitAdditionalAuthRequired.

Definition own___init__ (k : kind) : option init_owner :=
  match k with
  | Error => Some InitError
  | AuthPluginException => Some InitAuthPluginException
  | AuthMethodNotSupported => Some InitAuthMethodNotSupported
  | AdditionalAuthRequired => Some InitAdditionalAuthRequired
  | _ => None
  end.

(** Instantiating a class [K] of the taxonomy with positional [args]
    and keyword [kwargs]. *)
Definition construct (cfg : config) (k : kind) (args : list pyval)
    (kw : kwargs) (lg : log) : outcome error_object * log :=
  match getattr own___init__ k with
  | Some InitError =>
      match call_Error___init__ cfg k args kw lg with
      | (Ok i, lg') => (Ok {| error := i; authentication := None |}, lg')
      | (Raise e, lg') => (Raise e, lg')
      end
  | Some InitAuthPluginException =>
      AuthPluginException___init__ cfg k args kw lg
  | Some InitAuthMethodNotSupported =>
      AuthMethodNotSupported___init__ cfg k args kw lg
  | Some InitAdditionalAuthRequired =>
      AdditionalAuthRequired___init__ cfg k args kw lg
  | None => (Raise AttributeError, lg)
  end.

(** [MigrationNotProvided.__init__(self, mod_name, path)]: the message
    handed to [Exception.__init__]. *)
Definition MigrationNotProvided___init__ (mod_name path : pyval)
  : outcome pyval :=
  percent
    (VText ("%(mod_name)s doesn't provide database migrations. The migration"
            ++ " repository path at %(path)s doesn't exist or isn't a"
            ++ " directory."))
    [("mod_name", mod_name); ("path", path)].

End Constructors.

(** A template the reference runtime's [%] reads to its end: each
    directive in it is [%%], [%(name)s], [%(name)d] or [%(name)i]. *)
Fixpoint well_formed_from (st : scan_state) (fmt : string) : bool :=
  match fmt with
  | EmptyString =>
      match st with
      | Literal => true
      | _ => false
      end
  | String c rest =>
      match st with
      | Literal =>
          if Ascii.eqb c "%" then well_formed_from AfterPercent rest
          else well_formed_from Literal rest
      | AfterPercent =>
          if Ascii.eqb c "%" then well_formed_from Literal rest
          else if Ascii.eqb c "(" then well_formed_from (InKey 0 "") rest
          else false
      | InKey depth key =>
          if Ascii.eqb c "(" then
            well_formed_from (InKey (S depth) (snoc key c)) rest
          else if Ascii.eqb c ")" then
            match depth with
            | S depth' => well_formed_from (InKey depth' (snoc key c)) rest
            | O => well_formed_from (AfterKey VNone) rest
            end
          else well_formed_from (InKey depth (snoc key c)) rest
      | AfterKey _ =>
          if Ascii.eqb c "s" || Ascii.eqb c "d" || Ascii.eqb c "i"
          then well_formed_from Literal rest
          else false
      end
  end.

Definition well_formed (tmpl : pyval) : bool :=
  match tmpl with
  | VText t => well_formed_from Literal t
  | _ => false
  end.

(** The failures of [%] on a well-formed template are those of its
    arguments. *)
Definition argument_error (kw : kwargs) (e : exn) : Prop :=
  match e with
  | KeyError key => dict_get key kw = None
  | TypeError | UnicodeDecodeError => True
  | _ => False
  end.

(** ** Directives of a template and the values they accept *)

(** Where the reading of a template's directives stands; after a key,
    the key is remembered until its conversion character is read. *)
Inductive directive_state : Type :=
| DLiteral
| DAfterPercent
| DInKey (depth : nat) (key : string)
| DAfterKey (key : string).

(** The directives of a template, in order of occurrence: the name and
    the conversion character of each [%(name)s], [%(name)d] and
    [%(name)i]; [None] for a template with any other directive. *)
Fixpoint directives_from (st : directive_state) (fmt : string)
  : option (list (string * ascii)) :=
  match fmt with
  | EmptyString =>
      match st with
      | DLiteral => Some []
      | _ => None
      end
  | String c rest =>
      match st with
      | DLiteral =>
          if Ascii.eqb c "%" then directives_from DAfterPercent rest
          else directives_from DLiteral rest
      | DAfterPercent =>
          if Ascii.eqb c "%" then directives_from DLiteral rest
          else if Ascii.eqb c "(" then directives_from (DInKey 0 "") rest
          else None
      | DInKey depth key =>
          if Ascii.eqb c "(" then
            directives_from (DInKey (S depth) (snoc key c)) rest
          else if Ascii.eqb c ")" then
            match depth with
            | S depth' => directives_from (DInKey depth' (snoc key c)) rest
            | O => directives_from (DAfterKey key) rest
            end
          else directives_from (DInKey depth (snoc key c)) rest
      | DAfterKey key =>
          if Ascii.eqb c "s" || Ascii.eqb c "d" || Ascii.eqb c "i"
          then option_map (cons (key, c)) (directives_from DLiteral rest)
          else None
      end
  end.

Definition directives (tmpl : pyval) : option (list (string * ascii)) :=
  match tmpl with
  | VText t => directives_from DLiteral t
  | _ => None
  end.

(** The value suits the conversion: anything [%s] can render, a number
    under [%d] and [%i]. *)
Definition accepts (conv : ascii) (v : pyval) : bool :=
  if Ascii.eqb conv "s" then renders v
  else match v with
       | VInt _ => true
       | _ => false
       end.

(** Every value supplied for a name of the template suits the
    conversion it is used with. *)
Definition well_typed (kw : kwargs) (dirs : list (string * ascii)) : bool :=
  forallb (fun d => match dict_get (fst d) kw with
                    | Some v => accepts (snd d) v
                    | None => true
                    end) dirs.

(** Some name of the template is not supplied. *)
Definition lacks (kw : kwargs) (dirs : list (string * ascii)) : bool :=
  existsb (fun d => match dict_get (fst d) kw with
                    | Some _ => false
                    | None => true
                    end) dirs.

(** The template the builder renders when it is given no explicit
    message: [debug_message_format] for the [UnexpectedError] family
    under [insecure_debug], [message_format] otherwise. *)
Definition rendered_template (cfg : config) (k : kind) : pyval :=
  if is_UnexpectedError k && insecure_debug cfg
  then debug_message_format k
  else message_format k.

(** How the scan of a template and the reading of its directives go
    together: in step, the scan holding the value of the key the reading
    remembers. *)
Definition in_step (kw : kwargs) (ds : directive_state) (st : scan_state)
  : Prop :=
  match ds, st with
  | DLiteral, Literal => True
  | DAfterPercent, AfterPercent => True
  | DInKey depth key, InKey depth' key' => depth = depth' /\ key = key'
  | DAfterKey key, AfterKey v => dict_get key kw = Some v
  | _, _ => False
  end.

(** * Properties *)

(** ** The taxonomy *)

Lemma mro_reaches_Error (k : kind) : last (mro k) k = Error.
Proof. destruct k; reflexivity. Qed.

Lemma message_format_defined (k : kind) :
  getattr own_message_format k <> None.
Proof. destruct k; discriminate. Qed.

Lemma UnexpectedError_is_SecurityError (k : kind) :
  is_UnexpectedError k = true -> is_SecurityError k = true.
Proof. destruct k; intro H; first [ reflexivity | discriminate H ]. Qed.

Lemma UnexpectedError_debug_message_format (k : kind) :
  is_UnexpectedError k = true ->
  getattr own_debug_message_format k = Some (debug_message_format k)
  /\ truthy (debug_message_format k) = true.
Proof.
  destruct k; intro H; first [ discriminate H | split; reflexivity ].
Qed.

(** Inheritance, one step at a time: a class that does not assign an
    attribute sees its base's. *)
Lemma getattr_inherited {A : Type} (own : kind -> option A) (k p : kind) :
  parent k = Some p -> own k = None -> getattr own k = getattr own p.
Proof.
  intros Hp Ho. unfold getattr.
  destruct k; simpl in Hp; inversion Hp; subst p;
    unfold mro; simpl; rewrite Ho; reflexivity.
Qed.

Lemma getattr_own {A : Type} (own : kind -> option A) (k : kind) (a : A) :
  own k = Some a -> getattr own k = Some a.
Proof.
  intro Ho. unfold getattr, mro. simpl. rewrite Ho. reflexivity.
Qed.

(** ** Method resolution *)

Section Dispatch.
Context {R : Runtime}.
Variables (cfg : config) (k : kind) (m : pyval) (kw : kwargs).

Lemma _build_message_plain :
  is_SecurityError k = false ->
  _build_message cfg k m kw = Error__build_message k m kw.
Proof. destruct k; intro H; first [ discriminate H | reflexivity ]. Qed.

Lemma _build_message_secure :
  is_SecurityError k = true -> is_UnexpectedError k = false ->
  _build_message cfg k m kw = SecurityError__build_message cfg k m kw.
Proof.
  destruct k; intros H1 H2;
    first [ discriminate H1 | discriminate H2 | reflexivity ].
Qed.

Lemma _build_message_unexpected :
  is_UnexpectedError k = true ->
  _build_message cfg k m kw = UnexpectedError__build_message cfg k m kw.
Proof. destruct k; intro H; first [ discriminate H | reflexivity ]. Qed.

(** With the override off a [SecurityError] formats its own template,
    whatever message it was handed. *)
Lemma SecurityError__build_message_production (m' : pyval) (kw' : kwargs) :
  insecure_debug cfg = false ->
  SecurityError__build_message cfg k m' kw'
  = _format_with_unicode_kwargs (message_format k) kw'.
Proof.
  intro H. unfold SecurityError__build_message.
  rewrite H, andb_false_r. reflexivity.
Qed.

Lemma _build_message_secure_production :
  is_SecurityError k = true -> insecure_debug cfg = false ->
  _build_message cfg k m kw
  = _format_with_unicode_kwargs (message_format k) (effective_kwargs k kw).
Proof.
  intros Hs Hd. unfold effective_kwargs.
  destruct (is_UnexpectedError k) eqn:Hu.
  - rewrite _build_message_unexpected by assumption.
    unfold UnexpectedError__build_message.
    destruct (UnexpectedError_debug_message_format k Hu) as [Hg _].
    rewrite Hg.
    destruct (truthy m); simpl;
      apply SecurityError__build_message_production; assumption.
  - rewrite _build_message_secure by assumption.
    apply SecurityError__build_message_production; assumption.
Qed.

End Dispatch.

(** ** Disclosure policy of the SECURE kinds *)

(** C1, as stated, fails: with the override off [Unauthorized] renders
    its fixed template, and an explicit message that happens to be a
    piece of that template ("authentication") does occur in the
    rendering. *)
Lemma explicit_message_may_occur_in_fixed_template :
  Error___init__ cfg_production Unauthorized (VText "authentication") [] []
  = (Ok {| kind_of := Unauthorized;
           message :=
             VText "The request you have made requires authentication." |},
     [])
  /\ contains "The request you have made requires authentication."
              "authentication" = true.
Proof. split; reflexivity. Qed.

(** C1 (amended): for every SECURE kind, with [insecure_debug] off at
    construction, the rendered message does not depend on the explicit
    message: the builder formats the kind's own [message_format] with
    the keyword arguments, so construction gives the same result as with
    no explicit message, and any two explicit messages give the same
    result.  In particular [UnexpectedError("disk read failed at sector
    9")] carries exactly the fixed generic text, with code 500. *)
Theorem secure_rendering_ignores_explicit_message :
  (forall (R : Runtime) (cfg : config) (k : kind) (m : pyval)
          (kw : kwargs) (lg : log),
      is_SecurityError k = true ->
      insecure_debug cfg = false ->
      _build_message cfg k m kw
      = _format_with_unicode_kwargs (message_format k)
                                    (effective_kwargs k kw)
      /\ Error___init__ cfg k m kw lg = Error___init__ cfg k VNone kw lg
      /\ forall m2 : pyval,
           Error___init__ cfg k m kw lg = Error___init__ cfg k m2 kw lg)
  /\ Error___init__ cfg_production UnexpectedError
                    (VText "disk read failed at sector 9") [] []
     = (Ok {| kind_of := UnexpectedError;
              message :=
                VText ("An unexpected error prevented the server "
                       ++ "from fulfilling your request.") |},
        [])
  /\ code UnexpectedError = VInt 500.
Proof.
  split; [ | split; reflexivity ].
  intros R cfg k m kw lg Hs Hd.
  assert (Hany : forall m1 m2,
             Error___init__ cfg k m1 kw lg = Error___init__ cfg k m2 kw lg).
  { intros m1 m2. unfold Error___init__.
    rewrite 2 _build_message_secure_production by assumption.
    reflexivity. }
  split; [ apply _build_message_secure_production; assumption | ].
  split; [ apply Hany | intro m2; apply Hany ].
Qed.

Lemma secure_rendering_ignores_explicit_message_witness :
  is_SecurityError Forbidden = true
  /\ insecure_debug cfg_production = false
  /\ Error___init__ cfg_production Forbidden
       (VText "token 3f9a rejected by backend") [] []
     = Error___init__ cfg_production Forbidden VNone [] [].
Proof.
  split; [ reflexivity | split; [ reflexivity | ] ].
  exact (proj1 (proj2 (proj1 secure_rendering_ignores_explicit_message
                         reference_runtime cfg_production Forbidden
                         (VText "token 3f9a rejected by backend") [] []
                         eq_refl eq_refl))).
Defined.

(** ** Inheritance of code and title *)

(** C7: [UserNotFound(user_id="42")] carries "Could not find user: 42";
    the class assigns neither [code] nor [title], so both are those of
    its base [NotFound], 404 and "Not Found".  In general a class that
    does not assign [code] (or [title]) has its base's. *)
Theorem UserNotFound_renders_user_id_and_inherits_from_NotFound :
  (forall (cfg : config) (lg : log),
      Error___init__ cfg UserNotFound VNone [("user_id", VText "42")] lg
      = (Ok {| kind_of := UserNotFound;
               message := VText "Could not find user: 42" |}, lg))
  /\ parent UserNotFound = Some NotFound
  /\ own_code UserNotFound = None
  /\ own_title UserNotFound = None
  /\ own_code NotFound = Some (VInt 404)
  /\ own_title NotFound = Some (VText "Not Found")
  /\ code UserNotFound = VInt 404
  /\ title UserNotFound = VText "Not Found"
  /\ (forall k p : kind,
        parent k = Some p ->
        (own_code k = None -> code k = code p)
        /\ (own_title k = None -> title k = title p))
  /\ (forall (k : kind) (v : pyval),
        (own_code k = Some v -> code k = v)
        /\ (own_title k = Some v -> title k = v)).
Proof.
  repeat (split; [ reflexivity | ]).
  split.
  - intros k p Hp; split; intro Ho; unfold code, title, attr_or_None;
      rewrite (getattr_inherited _ k p Hp Ho); reflexivity.
  - intros k v; split; intro Ho; unfold code, title, attr_or_None;
      rewrite (getattr_own _ k v Ho); reflexivity.
Qed.

Lemma UserNotFound_renders_user_id_and_inherits_from_NotFound_witness :
  parent UserNotFound = Some NotFound
  /\ own_code UserNotFound = None
  /\ code UserNotFound = code NotFound.
Proof.
  split; [ reflexivity | split; [ reflexivity | ] ].
  exact (proj1
           (proj1 (proj2 (proj2 (proj2 (proj2 (proj2 (proj2 (proj2 (proj2
              UserNotFound_renders_user_id_and_inherits_from_NotFound))))))))
              UserNotFound NotFound eq_refl)
           eq_refl).
Defined.

(** ** The reference runtime's [%] *)

Lemma names_from_AfterKey (v v' : pyval) (fmt : string) :
  names_from (AfterKey v) fmt = names_from (AfterKey v') fmt.
Proof. destruct fmt; reflexivity. Qed.

Lemma conv_s_raises (v : pyval) (e : exn) :
  conv_s v = Raise e -> e = UnicodeDecodeError.
Proof.
  destruct v; simpl; try discriminate.
  unfold decode. destruct (is_ascii (bytes_of b)); congruence.
Qed.

(** One step of the induction below: the rest of the template is
    scanned from the state the step leads to, and its outcome is the
    outcome of the whole; a decoding failure reported for the rest is one
    of a supplied value, whichever state the scan resumed in. *)
Ltac rest_of_template IH Hn :=
  specialize (IH _ _ Hn); unfold prepend;
  match goal with
  | |- context [ scan ?kw ?st ?rest ] =>
      destruct (scan kw st rest) as [ ? | [] ]
  end;
  simpl; auto;
  (destruct IH as (?v & ?Hv & [ ?Hst | ?Hk ]); [ discriminate | eauto ]).

(** What a template made of [%%] and [%(name)s] directives can do on any
    dictionary: succeed, when every name it refers to is supplied; report
    the first missing name; or fail to decode a supplied byte string. *)
Lemma scan_simple (kw : kwargs) (fmt : string) :
  forall (st : scan_state) (names : list string),
    names_from st fmt = Some names ->
    match scan kw st fmt with
    | Ok _ => supplies kw names = true
    | Raise (KeyError key) => In key names /\ dict_get key kw = None
    | Raise UnicodeDecodeError =>
        exists v, conv_s v = Raise UnicodeDecodeError
                  /\ (st = AfterKey v
                      \/ exists key, In key names
                                     /\ dict_get key kw = Some v)
    | Raise _ => False
    end.
Proof.
  induction fmt as [ | c rest IH ]; intros st names Hn.
  - destruct st; simpl in Hn; try discriminate.
    inversion Hn; reflexivity.
  - destruct st as [ | | depth key | v ]; simpl in Hn |- *.
    + (* literal text *)
      destruct (Ascii.eqb c "%"); rest_of_template IH Hn.
    + (* after a percent sign *)
      destruct (Ascii.eqb c "%"); [ rest_of_template IH Hn | ].
      destruct (Ascii.eqb c "("); [ rest_of_template IH Hn | discriminate ].
    + (* inside a key *)
      destruct (Ascii.eqb c "("); [ rest_of_template IH Hn | ].
      destruct (Ascii.eqb c ")"); [ | rest_of_template IH Hn ].
      destruct depth as [ | depth' ]; [ | rest_of_template IH Hn ].
      destruct (names_from (AfterKey VNone) rest) as [ names' | ] eqn:Hrest;
        simpl in Hn; [ | discriminate ].
      inversion Hn; subst names; clear Hn.
      destruct (dict_get key kw) as [ v | ] eqn:Hget.
      2:{ split; [ left; reflexivity | assumption ]. }
      rewrite (names_from_AfterKey VNone v) in Hrest.
      specialize (IH _ _ Hrest).
      destruct (scan kw (AfterKey v) rest) as [ s | [] ]; auto.
      * simpl. rewrite Hget. assumption.
      * destruct IH as [ Hin Hnone ]. split; [ right | ]; assumption.
      * destruct IH as (v0 & Hv & [ Hst | (key0 & Hin & Hk) ]).
        -- inversion Hst; subst v0.
           exists v; split; [ assumption | right ].
           exists key; split; [ left; reflexivity | assumption ].
        -- exists v0; split; [ assumption | right ].
           exists key0; split; [ right | ]; assumption.
    + (* after a key *)
      destruct (Ascii.eqb c "s"); [ | discriminate ].
      destruct (conv_s v) as [ s | e ] eqn:Hconv; simpl.
      * rest_of_template IH Hn.
      * pose proof (conv_s_raises _ _ Hconv); subst e.
        exists v; split; [ assumption | left; reflexivity ].
Qed.

Lemma dict_get_forallb (P : pyval -> bool) (kw : kwargs) (key : string)
    (v : pyval) :
  forallb (fun kv => P (snd kv)) kw = true ->
  dict_get key kw = Some v -> P v = true.
Proof.
  induction kw as [ | [k0 v0] kw IH ]; simpl; [ discriminate | ].
  intros Hall Hget. apply andb_true_iff in Hall as [ Hv Hrest ].
  destruct (String.eqb k0 key); [ inversion Hget; subst; exact Hv | auto ].
Qed.

Lemma supplies_all (kw : kwargs) (names : list string) (n : string) :
  supplies kw names = true -> In n names -> dict_get n kw <> None.
Proof.
  unfold supplies. rewrite forallb_forall. intros Hall Hin.
  specialize (Hall n Hin). destruct (dict_get n kw); congruence.
Qed.

(** On a dictionary whose values [%s] accepts, a simple template fails
    only by a missing name. *)
Lemma scan_renderable (kw : kwargs) (t : string) (names : list string) :
  placeholders t = Some names ->
  renderable kw = true ->
  (supplies kw names = true /\ exists s, scan kw Literal t = Ok s)
  \/ (exists key, In key names /\ dict_get key kw = None
                  /\ scan kw Literal t = Raise (KeyError key)).
Proof.
  intros Hn Hr. pose proof (scan_simple kw t Literal names Hn) as H.
  destruct (scan kw Literal t) as [ s | [] ]; try contradiction.
  - left; eauto.
  - right; exists key; tauto.
  - destruct H as (v & Hv & [ Hst | (key & _ & Hget) ]); [ discriminate | ].
    pose proof (dict_get_forallb renders kw key v Hr Hget) as Hren.
    unfold renders in Hren. rewrite Hv in Hren. discriminate.
Qed.

Lemma text_values_renderable (kw : kwargs) :
  text_values kw = true -> renderable kw = true.
Proof.
  unfold text_values, renderable. rewrite 2 forallb_forall.
  intros H kv Hin. specialize (H kv Hin).
  destruct (snd kv); try discriminate; reflexivity.
Qed.

(** [safe_decode] of text or bytes gives text or fails to decode. *)
Lemma safe_decode_items_strings (kw : kwargs) :
  string_values kw = true ->
  (exists kw', safe_decode_items kw = Ok kw' /\ text_values kw' = true)
  \/ safe_decode_items kw = Raise UnicodeDecodeError.
Proof.
  induction kw as [ | [k v] kw IH ]; simpl; intro H.
  - left; exists []; split; reflexivity.
  - apply andb_true_iff in H as [ Hv Hrest ]. specialize (IH Hrest).
    destruct v; try discriminate; simpl.
    + destruct IH as [ (kw' & -> & Ht) | -> ]; simpl; [ left | right; auto ].
      exists ((k, VText s) :: kw'); split; [ reflexivity | exact Ht ].
    + unfold decode.
      destruct (is_ascii (bytes_of b)); simpl;
        [ | destruct (utf8_valid (bytes_of b)); simpl; [ | right; auto ] ];
        (destruct IH as [ (kw' & -> & Ht) | -> ]; simpl;
         [ left | right; auto ];
         exists ((k, VText b) :: kw'); split; [ reflexivity | exact Ht ]).
Qed.

(** The formatter on a simple template: with values [%s] accepts, or with
    values that are all strings, it renders text or reports a missing
    name, and raises nothing else. *)
Lemma _format_with_unicode_kwargs_simple (t : string) (kw : kwargs)
    (names : list string) :
  placeholders t = Some names ->
  renderable kw = true \/ string_values kw = true ->
  (exists s, _format_with_unicode_kwargs (VText t) kw = Ok (VText s))
  \/ (exists key, _format_with_unicode_kwargs (VText t) kw
                  = Raise (KeyError key)).
Proof.
  intros Hn Hkw. unfold _format_with_unicode_kwargs. simpl.
  pose proof (scan_simple kw t Literal names Hn) as H.
  destruct (scan kw Literal t) as [ s | [] ] eqn:Hscan; simpl;
    try contradiction; eauto.
  destruct Hkw as [ Hr | Hs ].
  - destruct (scan_renderable kw t names Hn Hr)
      as [ (_ & s & Hs) | (key & _ & _ & Hk) ]; congruence.
  - destruct (safe_decode_items_strings kw Hs) as [ (kw' & -> & Ht) | -> ];
      [ | eauto ].
    destruct (scan_renderable kw' t names Hn (text_values_renderable _ Ht))
      as [ (_ & s & ->) | (key & _ & _ & ->) ]; simpl; eauto.
Qed.

(** With values [%s] accepts, a missing name is always reported. *)
Lemma _format_with_unicode_kwargs_missing (t : string) (kw : kwargs)
    (names : list string) (n : string) :
  placeholders t = Some names ->
  renderable kw = true ->
  In n names -> dict_get n kw = None ->
  exists key, In key names /\ dict_get key kw = None
              /\ _format_with_unicode_kwargs (VText t) kw
                 = Raise (KeyError key).
Proof.
  intros Hn Hr Hin Hnone. unfold _format_with_unicode_kwargs. simpl.
  destruct (scan_renderable kw t names Hn Hr)
    as [ (Hsup & _) | (key & Hk & Hg & ->) ].
  - exfalso. exact (supplies_all kw names n Hsup Hin Hnone).
  - exists key; simpl; auto.
Qed.

(** The closing ['%(message)s %(amendment)s' % {...}] of a disclosed
    message. *)
Lemma percent_amendment (v : pyval) (s : string) :
  conv_s v = Ok s ->
  reference_percent (VText "%(message)s %(amendment)s")
                    [("message", v); ("amendment", VText amendment)]
  = Ok (VText (s ++ " " ++ amendment)).
Proof. intro H. simpl. rewrite H. reflexivity. Qed.

Lemma setdefault_forallb (P : pyval -> bool) (kw : kwargs) (key : string)
    (v : pyval) :
  P v = true ->
  forallb (fun kv => P (snd kv)) kw = true ->
  forallb (fun kv => P (snd kv)) (setdefault key v kw) = true.
Proof.
  intros Hv Hkw. unfold setdefault. destruct (dict_get key kw); auto.
  rewrite forallb_app, Hkw. simpl. rewrite Hv. reflexivity.
Qed.

(** ** The builder without an explicit message *)

Section NoMessage.
Context {R : Runtime}.
Variables (cfg : config) (k : kind) (m : pyval) (kw : kwargs).
Hypothesis falsy : truthy m = false.

Lemma _build_message_without_message :
  _build_message cfg k m kw
  = if is_UnexpectedError k
    then SecurityError__build_message cfg k (debug_message_format k)
                                      (effective_kwargs k kw)
    else _format_with_unicode_kwargs (message_format k) kw.
Proof.
  destruct (is_UnexpectedError k) eqn:Hu.
  - rewrite _build_message_unexpected by assumption.
    unfold UnexpectedError__build_message, effective_kwargs.
    rewrite Hu, falsy.
    destruct (UnexpectedError_debug_message_format k Hu) as [ -> _ ].
    reflexivity.
  - destruct (is_SecurityError k) eqn:Hs.
    + rewrite _build_message_secure by assumption.
      unfold SecurityError__build_message. rewrite falsy. reflexivity.
    + rewrite _build_message_plain by assumption.
      unfold Error__build_message. rewrite falsy. reflexivity.
Qed.

Lemma _build_message_renders_message_format :
  is_UnexpectedError k && insecure_debug cfg = false ->
  _build_message cfg k m kw
  = _format_with_unicode_kwargs (message_format k) (effective_kwargs k kw).
Proof.
  intro H. rewrite _build_message_without_message.
  unfold effective_kwargs.
  destruct (is_UnexpectedError k); [ | reflexivity ].
  simpl in H. apply SecurityError__build_message_production. exact H.
Qed.

End NoMessage.

(** [truthy] sees the same thing in any two values that are false. *)
Lemma _build_message_falsy {R : Runtime} (cfg : config) (k : kind)
    (m1 m2 : pyval) (kw : kwargs) :
  truthy m1 = false -> truthy m2 = false ->
  _build_message cfg k m1 kw = _build_message cfg k m2 kw.
Proof.
  intros H1 H2.
  rewrite (_build_message_without_message cfg k m1 kw H1).
  rewrite (_build_message_without_message cfg k m2 kw H2).
  reflexivity.
Qed.

(** C10: for every kind and either setting of the override, an explicit
    message equal to the empty string is treated as no explicit message:
    construction gives the same result as with [None], and the builder
    renders a fixed template of the kind with the keyword arguments -
    [message_format], or, for the [UnexpectedError] family under
    [insecure_debug], [debug_message_format] handed to [SecurityError]'s
    builder - never the empty message. *)
Theorem empty_explicit_message_is_no_message :
  forall (R : Runtime) (cfg : config) (k : kind) (kw : kwargs) (lg : log),
    Error___init__ cfg k (VText "") kw lg = Error___init__ cfg k VNone kw lg
    /\ _build_message cfg k (VText "") kw
       = if is_UnexpectedError k && insecure_debug cfg
         then SecurityError__build_message cfg k (debug_message_format k)
                                           (effective_kwargs k kw)
         else _format_with_unicode_kwargs (message_format k)
                                          (effective_kwargs k kw).
Proof.
  intros R cfg k kw lg. split.
  - unfold Error___init__.
    rewrite (_build_message_falsy cfg k (VText "") VNone kw eq_refl eq_refl).
    reflexivity.
  - destruct (is_UnexpectedError k && insecure_debug cfg) eqn:H.
    + rewrite _build_message_without_message by reflexivity.
      apply andb_true_iff in H as [ -> _ ]. reflexivity.
    + apply _build_message_renders_message_format; [ reflexivity | exact H ].
Qed.

(** ** Missing keyword arguments *)

Lemma Error___init___KeyError {R : Runtime} (cfg : config) (k : kind)
    (m : pyval) (kw : kwargs) (lg : log) (key : string) :
  _build_message cfg k m kw = Raise (KeyError key) ->
  Error___init__ cfg k m kw lg
  = if _FATAL_EXCEPTION_FORMAT_ERRORS cfg
    then (Raise (KeyError key), lg)
    else (Ok {| kind_of := k; message := message_format k |},
          (lg ++ [missing_kwargs_warning])%list).
Proof. intro H. unfold Error___init__. rewrite H. reflexivity. Qed.

Lemma directives_after_key (key : string) (fmt : string)
    (dirs : list (string * ascii)) :
  directives_from (DAfterKey key) fmt = Some dirs ->
  exists (c : ascii) (dirs' : list (string * ascii)),
    dirs = (key, c) :: dirs'.
Proof.
  destruct fmt as [ | c rest ]; simpl; [ discriminate | ].
  destruct (Ascii.eqb c "s" || Ascii.eqb c "d" || Ascii.eqb c "i");
    [ | discriminate ].
  destruct (directives_from DLiteral rest) as [ dirs' | ]; simpl;
    [ | discriminate ].
  intro H; inversion H. eauto.
Qed.

(** The rest of the template decides the outcome of the whole. *)
Ltac rest_decides IH :=
  match goal with
  | |- context [ scan ?kw ?st ?rest ] =>
      destruct (scan kw st rest) as [ ? | [] ]
  end;
  simpl; auto.

(** On values that suit their conversions, a template of [%(name)s],
    [%(name)d] and [%(name)i] directives renders when every name is
    supplied and otherwise reports a name that is not. *)
Lemma scan_directives (kw : kwargs) (fmt : string) :
  forall (ds : directive_state) (st : scan_state)
         (dirs : list (string * ascii)),
    in_step kw ds st ->
    directives_from ds fmt = Some dirs ->
    well_typed kw dirs = true ->
    match scan kw st fmt with
    | Ok _ => lacks kw dirs = false
    | Raise (KeyError key) =>
        In key (map fst dirs) /\ dict_get key kw = None
    | Raise _ => False
    end.
Proof.
  induction fmt as [ | c rest IH ]; intros ds st dirs Hstep Hd Hw.
  - destruct ds; simpl in Hd; try discriminate.
    destruct st; try contradiction. inversion Hd; reflexivity.
  - destruct ds as [ | | depth key | key ];
      destruct st as [ | | depth' key' | v ]; try contradiction;
      simpl in Hd |- *.
    + destruct (Ascii.eqb c "%").
      * exact (IH DAfterPercent AfterPercent dirs I Hd Hw).
      * specialize (IH DLiteral Literal dirs I Hd Hw). unfold prepend.
        rest_decides IH.
    + destruct (Ascii.eqb c "%").
      * specialize (IH DLiteral Literal dirs I Hd Hw). unfold prepend.
        rest_decides IH.
      * destruct (Ascii.eqb c "("); [ | discriminate ].
        exact (IH (DInKey 0 "") (InKey 0 "") dirs (conj eq_refl eq_refl)
                  Hd Hw).
    + destruct Hstep as [ <- <- ].
      destruct (Ascii.eqb c "(").
      { exact (IH (DInKey (S depth) (snoc key c))
                  (InKey (S depth) (snoc key c)) dirs
                  (conj eq_refl eq_refl) Hd Hw). }
      destruct (Ascii.eqb c ")").
      2:{ exact (IH (DInKey depth (snoc key c))
                    (InKey depth (snoc key c)) dirs
                    (conj eq_refl eq_refl) Hd Hw). }
      destruct depth as [ | depth' ].
      2:{ exact (IH (DInKey depth' (snoc key c))
                    (InKey depth' (snoc key c)) dirs
                    (conj eq_refl eq_refl) Hd Hw). }
      destruct (dict_get key kw) as [ v | ] eqn:Hget.
      * exact (IH (DAfterKey key) (AfterKey v) dirs Hget Hd Hw).
      * destruct (directives_after_key key rest dirs Hd) as (c0 & dirs' & ->).
        split; [ left; reflexivity | exact Hget ].
    + simpl in Hstep.
      destruct (directives_from DLiteral rest) as [ dirs' | ] eqn:Hrest;
        [ | destruct (Ascii.eqb c "s" || Ascii.eqb c "d" || Ascii.eqb c "i");
            discriminate ].
      assert (Hdirs : Ascii.eqb c "s" || Ascii.eqb c "d" || Ascii.eqb c "i"
                      = true /\ dirs = (key, c) :: dirs').
      { destruct (Ascii.eqb c "s" || Ascii.eqb c "d" || Ascii.eqb c "i");
          simpl in Hd; [ | discriminate ].
        inversion Hd; split; reflexivity. }
      destruct Hdirs as [ Hc -> ]. clear Hd.
      simpl in Hw. rewrite Hstep in Hw.
      apply andb_true_iff in Hw as [ Hacc Hw' ].
      specialize (IH DLiteral Literal dirs' I Hrest Hw').
      assert (Hlacks : lacks kw ((key, c) :: dirs') = lacks kw dirs').
      { simpl. rewrite Hstep. reflexivity. }
      unfold accepts in Hacc.
      destruct (Ascii.eqb c "s").
      * unfold renders in Hacc.
        destruct (conv_s v) as [ s | ]; [ | discriminate ]. cbn [bind].
        destruct (scan kw Literal rest) as [ r | [] ]; cbn [bind]; auto.
        -- rewrite Hlacks. exact IH.
        -- destruct IH as [ Hin Hnone ]. split; [ right | ]; assumption.
      * simpl in Hc. rewrite Hc.
        destruct v; try discriminate. cbn [conv_d bind].
        destruct (scan kw Literal rest) as [ r | [] ]; cbn [bind]; auto.
        -- rewrite Hlacks. exact IH.
        -- destruct IH as [ Hin Hnone ]. split; [ right | ]; assumption.
Qed.

Lemma _format_with_unicode_kwargs_lacks (t : string) (kw : kwargs)
    (dirs : list (string * ascii)) :
  directives (VText t) = Some dirs ->
  well_typed kw dirs = true ->
  lacks kw dirs = true ->
  exists key,
    In key (map fst dirs) /\ dict_get key kw = None
    /\ _format_with_unicode_kwargs (VText t) kw = Raise (KeyError key).
Proof.
  intros Hd Hw Hl. unfold _format_with_unicode_kwargs.
  change (percent ?f ?a) with (reference_percent f a).
  unfold reference_percent.
  pose proof (scan_directives kw t DLiteral Literal dirs I Hd Hw) as H.
  destruct (scan kw Literal t) as [ s | e ].
  - rewrite Hl in H. discriminate H.
  - destruct e; try contradiction.
    exists key. destruct H as [ Hin Hnone ]. auto.
Qed.

Lemma templates_have_directives (k : kind) :
  (message_format k = VNone \/ directives (message_format k) <> None)
  /\ (is_UnexpectedError k = true ->
      directives (debug_message_format k) <> None).
Proof.
  destruct k; vm_compute; split;
    first [ left; reflexivity | right; discriminate
          | intro H; first [ discriminate H | discriminate ] ].
Qed.

(** C4, as stated, fails in three ways.
    [PasswordAgeValidationError(min_age_days="1")] lacks [days_left],
    but [%d] meets the text first and [TypeError] leaves the
    constructor.  [DirectMappingError()] under [insecure_debug] lacks
    the [mapping_id] of its [message_format], but the builder renders
    the detailed template: no warning, and the message is not the raw
    template.  [ValidationError(attribute=b'\xff')] lacks [target], but
    the byte string fails to decode first: the raw template is returned
    by the formatter and no warning is logged. *)
Lemma missing_name_does_not_always_warn :
  directives (message_format PasswordAgeValidationError)
  = Some [("min_age_days", "d"%char); ("days_left", "d"%char)]
  /\ Error___init__ cfg_production PasswordAgeValidationError VNone
                    [("min_age_days", VText "1")] []
     = (Raise TypeError, [])
  /\ directives (message_format DirectMappingError)
     = Some [("mapping_id", "s"%char)]
  /\ Error___init__ cfg_insecure_debug DirectMappingError VNone [] []
     = (Ok {| kind_of := DirectMappingError;
              message :=
                VText ("An unexpected error prevented the server from "
                       ++ "fulfilling your request:  (Disable insecure_debug"
                       ++ " mode to suppress these details.)") |}, [])
  /\ Error___init__ cfg_production ValidationError VNone
                    [("attribute", VBytes (String "255" ""))] []
     = (Ok {| kind_of := ValidationError;
              message := message_format ValidationError |}, []).
Proof. repeat split. Qed.

(** C4 (amended): when no explicit message is supplied, the keyword
    arguments lack one or more names of the template the builder renders
    - the kind's [message_format], or the [debug_message_format] for the
    [UnexpectedError] family under [insecure_debug], with [exception]
    defaulted - and every value supplied for a name of that template
    suits its placeholder (renderable under [%s], a number under [%d]
    and [%i]), construction does not raise: exactly one warning is
    appended to the log and the message is the kind's raw, unsubstituted
    [message_format]; under [_FATAL_EXCEPTION_FORMAT_ERRORS] the
    [KeyError] of a missing name is raised instead and nothing is
    logged.  Every template of the module is made of such placeholders.
    [ValidationError(attribute="email")], lacking [target], carries the
    raw template with one warning and code 400, and raises in strict
    mode. *)
Theorem missing_name_falls_back_to_raw_message_format :
  (forall (cfg : config) (k : kind) (m : pyval) (kw : kwargs) (lg : log)
          (dirs : list (string * ascii)),
      truthy m = false ->
      directives (rendered_template cfg k) = Some dirs ->
      well_typed (effective_kwargs k kw) dirs = true ->
      lacks (effective_kwargs k kw) dirs = true ->
      exists key : string,
        In key (map fst dirs)
        /\ dict_get key (effective_kwargs k kw) = None
        /\ Error___init__ cfg k m kw lg
           = if _FATAL_EXCEPTION_FORMAT_ERRORS cfg
             then (Raise (KeyError key), lg)
             else (Ok {| kind_of := k; message := message_format k |},
                   (lg ++ [missing_kwargs_warning])%list))
  /\ (forall k : kind,
        (message_format k = VNone \/ directives (message_format k) <> None)
        /\ (is_UnexpectedError k = true ->
            directives (debug_message_format k) <> None))
  /\ Error___init__ cfg_production ValidationError VNone
                    [("attribute", VText "email")] []
     = (Ok {| kind_of := ValidationError;
              message := message_format ValidationError |},
        [missing_kwargs_warning])
  /\ own_message_format ValidationError
     = Some (VText
        ("Expecting to find %(attribute)s in %(target)s - "
         ++ "the server could not comply with the request "
         ++ "since it is either malformed or otherwise "
         ++ "incorrect. The client is assumed to be in error."))
  /\ code ValidationError = VInt 400
  /\ Error___init__ cfg_strict ValidationError VNone
                    [("attribute", VText "email")] []
     = (Raise (KeyError "target"), []).
Proof.
  split; [ | split; [ exact templates_have_directives | repeat split ] ].
  intros cfg k m kw lg dirs Hm Hd Hw Hl.
  destruct (rendered_template cfg k) as [ | t | | | ] eqn:Ht;
    try discriminate Hd.
  destruct (_format_with_unicode_kwargs_lacks t _ dirs Hd Hw Hl)
    as (key & Hin & Hnone & Hf).
  exists key. split; [ exact Hin | split; [ exact Hnone | ] ].
  apply Error___init___KeyError.
  unfold rendered_template in Ht.
  destruct (is_UnexpectedError k && insecure_debug cfg) eqn:Hud.
  - apply andb_true_iff in Hud as [ Hu Hdebug ].
    rewrite _build_message_without_message by exact Hm.
    rewrite Hu, Ht. unfold SecurityError__build_message.
    destruct (UnexpectedError_debug_message_format k Hu) as [ _ Htr ].
    rewrite Ht in Htr. rewrite Htr, Hdebug.
    cbn [andb string_types reference_runtime reference_string_types].
    rewrite Hf. reflexivity.
  - rewrite _build_message_renders_message_format by assumption.
    rewrite Ht. exact Hf.
Qed.

Lemma missing_name_falls_back_to_raw_message_format_witness :
  directives (rendered_template cfg_production StringLengthExceeded)
  = Some [("string", "s"%char); ("type", "s"%char); ("length", "d"%char)]
  /\ exists key : string,
       In key ["string"; "type"; "length"]
       /\ dict_get key [("string", VText "abc"); ("type", VText "name")]
          = None
       /\ Error___init__ cfg_production StringLengthExceeded VNone
            [("string", VText "abc"); ("type", VText "name")] []
          = (Ok {| kind_of := StringLengthExceeded;
                   message := message_format StringLengthExceeded |},
             [missing_kwargs_warning]).
Proof.
  split; [ reflexivity | ].
  exact (proj1 missing_name_falls_back_to_raw_message_format
           cfg_production StringLengthExceeded VNone
           [("string", VText "abc"); ("type", VText "name")] []
           [("string", "s"%char); ("type", "s"%char); ("length", "d"%char)]
           eq_refl eq_refl eq_refl eq_refl).
Defined.

(** ** Explicit messages on PLAIN kinds *)

(** C5, as stated, fails: [Error._build_message] returns a true explicit
    message as it is.  [ValidationError("Bad %(attribute)s",
    attribute="email")] carries "Bad %(attribute)s", not the
    substitution "Bad email" that [%] would give. *)
Lemma plain_kind_leaves_placeholders_in_explicit_message :
  percent (VText "Bad %(attribute)s") [("attribute", VText "email")]
  = Ok (VText "Bad email")
  /\ is_SecurityError ValidationError = false
  /\ Error___init__ cfg_production ValidationError
                    (VText "Bad %(attribute)s")
                    [("attribute", VText "email")] []
     = (Ok {| kind_of := ValidationError;
              message := VText "Bad %(attribute)s" |}, []).
Proof. repeat split. Qed.

(** C5 (amended): for every PLAIN kind, an explicit message that is true
    (non-empty) is the message verbatim, whether or not it contains
    placeholders: the keyword arguments are not substituted into it,
    nothing is logged and nothing is raised. *)
Theorem plain_kind_uses_explicit_message_verbatim :
  forall (R : Runtime) (cfg : config) (k : kind) (m : pyval)
         (kw : kwargs) (lg : log),
    is_SecurityError k = false ->
    truthy m = true ->
    _build_message cfg k m kw = Ok m
    /\ Error___init__ cfg k m kw lg
       = (Ok {| kind_of := k; message := m |}, lg).
Proof.
  intros R cfg k m kw lg Hs Hm.
  assert (H : _build_message cfg k m kw = Ok m).
  { rewrite _build_message_plain by assumption.
    unfold Error__build_message. rewrite Hm. reflexivity. }
  split; [ exact H | ].
  unfold Error___init__. rewrite H. reflexivity.
Qed.

Lemma plain_kind_uses_explicit_message_verbatim_witness :
  is_SecurityError Conflict = false
  /\ truthy (VText "Duplicate entry for %(type)s") = true
  /\ Error___init__ cfg_insecure_debug Conflict
                    (VText "Duplicate entry for %(type)s")
                    [("type", VText "user")] []
     = (Ok {| kind_of := Conflict;
              message := VText "Duplicate entry for %(type)s" |}, []).
Proof.
  split; [ reflexivity | split; [ reflexivity | ] ].
  exact (proj2 (plain_kind_uses_explicit_message_verbatim reference_runtime
                  cfg_insecure_debug Conflict
                  (VText "Duplicate entry for %(type)s")
                  [("type", VText "user")] [] eq_refl eq_refl)).
Defined.

(** ** Explicit messages on SECURE kinds under [insecure_debug] *)

Lemma truthy_text (X : string) : X <> "" -> truthy (VText X) = true.
Proof.
  intro H. simpl. apply negb_true_iff. apply String.eqb_neq. exact H.
Qed.

Lemma _build_message_secure_debug {R : Runtime} (cfg : config) (k : kind)
    (m : pyval) (kw : kwargs) :
  is_SecurityError k = true ->
  insecure_debug cfg = true ->
  truthy m = true ->
  _build_message cfg k m kw
  = (message' <- (if string_types m
                  then _format_with_unicode_kwargs m (effective_kwargs k kw)
                  else Ok m) ;;
     percent (VText "%(message)s %(amendment)s")
             [("message", message'); ("amendment", VText amendment)]).
Proof.
  intros Hs Hd Hm. unfold effective_kwargs.
  destruct (is_UnexpectedError k) eqn:Hu.
  - rewrite _build_message_unexpected by assumption.
    unfold UnexpectedError__build_message. rewrite Hm. simpl.
    unfold SecurityError__build_message. rewrite Hm, Hd. reflexivity.
  - rewrite _build_message_secure by assumption.
    unfold SecurityError__build_message. rewrite Hm, Hd. reflexivity.
Qed.

(** A message without a percent sign is its own substitution. *)
Lemma scan_verbatim (kw : kwargs) (X : string) :
  contains X "%" = false -> scan kw Literal X = Ok X.
Proof.
  induction X as [ | c X IH ]; [ reflexivity | ].
  intro H.
  change (contains (String c X) "%")
    with (Ascii.eqb "%" c && true || contains X "%") in H.
  change (scan kw Literal (String c X))
    with (if Ascii.eqb c "%" then scan kw AfterPercent X
          else prepend c (scan kw Literal X)).
  apply orb_false_iff in H as [ Hc HX ].
  rewrite andb_true_r in Hc. rewrite Ascii.eqb_sym, Hc.
  rewrite (IH HX). reflexivity.
Qed.

Lemma _format_with_unicode_kwargs_verbatim (kw : kwargs) (X : string) :
  contains X "%" = false ->
  _format_with_unicode_kwargs (VText X) kw = Ok (VText X).
Proof.
  intro H. unfold _format_with_unicode_kwargs. simpl.
  rewrite (scan_verbatim kw X H). reflexivity.
Qed.






(** ** Deep copies *)

Lemma getattr___deepcopy__ (k : kind) :
  getattr own___deepcopy__ k
  = if is_SecurityError k then Some tt else None.
Proof. destruct k; reflexivity. Qed.

(** C8 (the code departs from it): [SecurityError.__deepcopy__] returns
    [self] when called with no argument, as its docstring intends, but
    it is declared without the memo parameter that [copy.deepcopy]
    passes: the copy of any SECURE instance raises [TypeError] instead of
    returning the instance. *)
Theorem deepcopy_of_secure_instance_raises :
  copy_deepcopy
    {| kind_of := Unauthorized;
       message :=
         VText "The request you have made requires authentication." |} []
  = Raise TypeError
  /\ (forall (x : instance) (m : memo),
        copy_deepcopy x m
        = if is_SecurityError (kind_of x) then Raise TypeError
          else Raise NotModelled)
  /\ (forall x : instance,
        SecurityError___deepcopy__ x (@nil memo) = Ok x).
Proof.
  split; [ reflexivity | split; [ | reflexivity ] ].
  intros x m. unfold copy_deepcopy. rewrite getattr___deepcopy__.
  destruct (is_SecurityError (kind_of x)); reflexivity.
Qed.

(** ** Decoding failures in the formatter *)

Section Decoding.
Context {R : Runtime}.

Lemma safe_decode_items_Ok (kw kw' : kwargs) :
  safe_decode_items kw = Ok kw' ->
  Forall2 (fun kv kv' => fst kv' = fst kv
                         /\ safe_decode (snd kv) = Ok (snd kv'))
          kw kw'.
Proof.
  revert kw'. induction kw as [ | [k v] kw IH ]; simpl; intros kw' H.
  - inversion H. constructor.
  - destruct (safe_decode v) as [ v' | ] eqn:Hv; simpl in H;
      [ | discriminate ].
    destruct (safe_decode_items kw) as [ rest | ]; simpl in H;
      [ | discriminate ].
    inversion H; subst kw'. constructor; [ split; [ reflexivity | ] | ].
    + exact Hv.
    + apply IH. reflexivity.
Qed.

Lemma safe_decode_items_Raise (kw : kwargs) (e : exn) :
  safe_decode_items kw = Raise e ->
  exists key v, In (key, v) kw /\ safe_decode v = Raise e.
Proof.
  induction kw as [ | [k v] kw IH ]; simpl; intro H; [ discriminate | ].
  destruct (safe_decode v) as [ v' | e' ] eqn:Hv; simpl in H.
  - destruct (safe_decode_items kw) as [ rest | e' ]; simpl in H;
      [ discriminate | ].
    inversion H; subst e'.
    destruct (IH eq_refl) as (key & v0 & Hin & Hd).
    exists key, v0. split; [ right; exact Hin | exact Hd ].
  - inversion H; subst e'. exists k, v. split; [ left; reflexivity | exact Hv ].
Qed.

End Decoding.

(** C9: when substituting the keyword arguments into a template raises
    [UnicodeDecodeError], the formatter decodes every value with
    [safe_decode] and substitutes again, and its result is that of the
    second substitution; when the decoding itself raises
    [UnicodeDecodeError] (for one of the values), the formatter returns
    the template as it is, and a construction that renders this template
    logs nothing. *)
Theorem formatter_retries_with_decoded_kwargs :
  forall (R : Runtime) (msg_format : pyval) (kw : kwargs),
    percent msg_format kw = Raise UnicodeDecodeError ->
    (forall kw' : kwargs,
        safe_decode_items kw = Ok kw' ->
        Forall2 (fun kv kv' => fst kv' = fst kv
                               /\ safe_decode (snd kv) = Ok (snd kv'))
                kw kw'
        /\ _format_with_unicode_kwargs msg_format kw
           = percent msg_format kw')
    /\ (safe_decode_items kw = Raise UnicodeDecodeError ->
        (exists key v, In (key, v) kw
                       /\ safe_decode v = Raise UnicodeDecodeError)
        /\ _format_with_unicode_kwargs msg_format kw = Ok msg_format
        /\ forall (cfg : config) (k : kind) (m : pyval) (lg : log),
             truthy m = false ->
             is_UnexpectedError k = false ->
             message_format k = msg_format ->
             Error___init__ cfg k m kw lg
             = (Ok {| kind_of := k; message := msg_format |}, lg)).
Proof.
  intros R msg_format kw Hp. split.
  - intros kw' Hd. split; [ apply safe_decode_items_Ok; exact Hd | ].
    unfold _format_with_unicode_kwargs. rewrite Hp, Hd. reflexivity.
  - intro Hd.
    assert (Hf : _format_with_unicode_kwargs msg_format kw = Ok msg_format).
    { unfold _format_with_unicode_kwargs. rewrite Hp, Hd. reflexivity. }
    split; [ apply safe_decode_items_Raise; exact Hd | ].
    split; [ exact Hf | ].
    intros cfg k m lg Hm Hu Hk. unfold Error___init__.
    rewrite _build_message_without_message by exact Hm.
    rewrite Hu, Hk, Hf. reflexivity.
Qed.

Lemma formatter_retries_with_decoded_kwargs_witness :
  percent (VText "Could not find: %(target)s")
          [("target", VBytes (String "255" ""))]
  = Raise UnicodeDecodeError
  /\ safe_decode_items [("target", VBytes (String "255" ""))]
     = Raise UnicodeDecodeError
  /\ _format_with_unicode_kwargs
       (VText "Could not find: %(target)s")
       [("target", VBytes (String "255" ""))]
     = Ok (VText "Could not find: %(target)s").
Proof.
  split; [ reflexivity | split; [ reflexivity | ] ].
  exact (proj1 (proj2 (proj2
           (formatter_retries_with_decoded_kwargs reference_runtime
              (VText "Could not find: %(target)s")
              [("target", VBytes (String "255" ""))] eq_refl)
           eq_refl))).
Defined.

Example formatter_decodes_utf8_bytes_on_retry :
  percent (VText "Could not find: %(target)s")
          [("target", VBytes (String "195" (String "169" "")))]
  = Raise UnicodeDecodeError
  /\ safe_decode_items [("target", VBytes (String "195" (String "169" "")))]
     = Ok [("target", VText (String "195" (String "169" "")))]
  /\ _format_with_unicode_kwargs
       (VText "Could not find: %(target)s")
       [("target", VBytes (String "195" (String "169" "")))]
     = Ok (VText ("Could not find: " ++ String "195" (String "169" ""))).
Proof. repeat split. Qed.

(** ** Totality of construction *)

(** C3, as stated, fails: [__init__] catches [KeyError] only.
    [ForbiddenNotSecurity()] has no template ([None % {}]) and
    [PasswordAgeValidationError] given text for a [%d] placeholder both
    raise [TypeError]; and [SchemaValidationError(detail="")] is
    constructed with an empty message. *)
Lemma construction_is_not_total :
  Error___init__ cfg_production ForbiddenNotSecurity VNone [] []
  = (Raise TypeError, [])
  /\ Error___init__ cfg_production PasswordAgeValidationError VNone
       [("min_age_days", VText "1"); ("days_left", VInt 2)] []
     = (Raise TypeError, [])
  /\ Error___init__ cfg_production SchemaValidationError VNone
       [("detail", VText "")] []
     = (Ok {| kind_of := SchemaValidationError; message := VText "" |}, []).
Proof. repeat split. Qed.

Lemma message_format_nonempty (k : kind) (t : string) :
  message_format k = VText t -> t <> "".
Proof. destruct k; intro H; inversion H; discriminate. Qed.

Lemma simple_templates_message_format (k : kind) :
  simple_templates k = true ->
  exists t names, message_format k = VText t /\ placeholders t = Some names.
Proof.
  unfold simple_templates, template_placeholders.
  destruct (message_format k) as [ | t | | | ]; try discriminate.
  destruct (placeholders t) as [ names | ] eqn:Hn; [ | discriminate ].
  intros _. exists t, names. split; [ reflexivity | exact Hn ].
Qed.

Lemma simple_templates_debug_message_format (k : kind) :
  simple_templates k = true -> is_UnexpectedError k = true ->
  exists d names,
    debug_message_format k = VText d /\ placeholders d = Some names.
Proof.
  unfold simple_templates, template_placeholders. intros H Hu.
  rewrite Hu in H.
  destruct (match message_format k with
            | VText t => placeholders t
            | _ => None
            end); [ | discriminate ].
  destruct (debug_message_format k) as [ | d | | | ]; try discriminate.
  destruct (placeholders d) as [ names | ] eqn:Hn; [ | discriminate ].
  exists d, names. split; [ reflexivity | exact Hn ].
Qed.

(** Without an explicit message, on simple templates and values that
    are all acceptable to [%s] or all strings, the builder renders text
    or reports a missing name. *)
Lemma _build_message_simple (cfg : config) (k : kind) (m : pyval)
    (kw : kwargs) :
  truthy m = false ->
  simple_templates k = true ->
  renderable kw = true \/ string_values kw = true ->
  (exists s, _build_message cfg k m kw = Ok (VText s))
  \/ (exists key, _build_message cfg k m kw = Raise (KeyError key)).
Proof.
  intros Hm Hk Hkw.
  destruct (simple_templates_message_format k Hk) as (t & names & Ht & Hn).
  assert (Hkw' : renderable (effective_kwargs k kw) = true
                 \/ string_values (effective_kwargs k kw) = true).
  { unfold effective_kwargs. destruct (is_UnexpectedError k); [ | exact Hkw ].
    destruct Hkw as [ H | H ]; [ left | right ].
    - apply (setdefault_forallb renders); [ reflexivity | exact H ].
    - apply (setdefault_forallb reference_string_types);
        [ reflexivity | exact H ]. }
  destruct (is_UnexpectedError k && insecure_debug cfg) eqn:Hd.
  - apply andb_true_iff in Hd as [ Hu Hd ].
    destruct (simple_templates_debug_message_format k Hk Hu)
      as (d & dnames & Hdm & Hdn).
    rewrite _build_message_without_message by exact Hm.
    rewrite Hu, Hdm. unfold SecurityError__build_message.
    destruct (UnexpectedError_debug_message_format k Hu) as [ _ Htr ].
    rewrite Hdm in Htr. rewrite Htr, Hd.
    cbn [andb string_types reference_runtime reference_string_types].
    destruct (_format_with_unicode_kwargs_simple d _ dnames Hdn Hkw')
      as [ (s & ->) | (key & ->) ]; cbn [bind].
    + left. exists (s ++ " " ++ amendment).
      change (percent ?f ?a) with (reference_percent f a).
      apply (percent_amendment (VText s) s eq_refl).
    + right. eauto.
  - rewrite _build_message_renders_message_format by assumption.
    rewrite Ht.
    exact (_format_with_unicode_kwargs_simple t _ names Hn Hkw').
Qed.

Lemma kinds_without_simple_templates (k : kind) :
  simple_templates k = false ->
  In k [Error; ForbiddenNotSecurity; SecurityError;
        PasswordAgeValidationError; StringLengthExceeded;
        ValidationSizeError; PasswordVerificationError].
Proof.
  destruct k; vm_compute; intro H; first [ discriminate H | tauto ].
Qed.

(** C3 (amended): with [_FATAL_EXCEPTION_FORMAT_ERRORS] off, construction
    never raises [KeyError]; an exception that leaves the constructor is
    one of another class raised by the builder ([TypeError] for a kind
    without a template or a value of the wrong type, [ValueError], ...).
    On the reference runtime, for every kind whose templates use
    [%(name)s] placeholders only (every kind but the three without a
    template and the four with a [%d] or [%i] placeholder), no explicit
    message, and keyword arguments - empty, or lacking names the template
    refers to, or not - whose values are all acceptable to [%s] or all
    strings, construction does not raise and the message is text: the
    rendering, or, with one warning logged, the raw non-empty
    template. *)
Theorem construction_total_on_simple_templates :
  (forall (R : Runtime) (cfg : config) (k : kind) (m : pyval)
          (kw : kwargs) (lg : log) (e : exn),
      _FATAL_EXCEPTION_FORMAT_ERRORS cfg = false ->
      fst (Error___init__ cfg k m kw lg) = Raise e ->
      _build_message cfg k m kw = Raise e
      /\ forall key : string, e <> KeyError key)
  /\ (forall (cfg : config) (k : kind) (m : pyval) (kw : kwargs) (lg : log),
        _FATAL_EXCEPTION_FORMAT_ERRORS cfg = false ->
        truthy m = false ->
        simple_templates k = true ->
        renderable kw = true \/ string_values kw = true ->
        exists s : string,
          (_build_message cfg k m kw = Ok (VText s)
           /\ Error___init__ cfg k m kw lg
              = (Ok {| kind_of := k; message := VText s |}, lg))
          \/ (message_format k = VText s
              /\ s <> ""
              /\ Error___init__ cfg k m kw lg
                 = (Ok {| kind_of := k; message := VText s |},
                    (lg ++ [missing_kwargs_warning])%list)))
  /\ (forall k : kind,
        simple_templates k = false ->
        In k [Error; ForbiddenNotSecurity; SecurityError;
              PasswordAgeValidationError; StringLengthExceeded;
              ValidationSizeError; PasswordVerificationError]).
Proof.
  split; [ | split; [ | exact kinds_without_simple_templates ] ].
  - intros R cfg k m kw lg e Hfatal. unfold Error___init__.
    destruct (_build_message cfg k m kw) as [ v | e' ]; simpl;
      [ discriminate | ].
    destruct e'; rewrite ?Hfatal; simpl; intro H; inversion H; subst;
      (split; [ reflexivity | discriminate ]).
  - intros cfg k m kw lg Hfatal Hm Hk Hkw.
    destruct (_build_message_simple cfg k m kw Hm Hk Hkw)
      as [ (s & Hb) | (key & Hb) ].
    + exists s. left. split; [ exact Hb | ].
      unfold Error___init__. rewrite Hb. reflexivity.
    + destruct (simple_templates_message_format k Hk) as (t & names & Ht & _).
      exists t. right. split; [ exact Ht | ].
      split; [ exact (message_format_nonempty k t Ht) | ].
      rewrite (Error___init___KeyError cfg k m kw lg key Hb).
      rewrite Hfatal, Ht. reflexivity.
Qed.

Lemma construction_total_on_simple_templates_witness :
  simple_templates FederatedProtocolNotFound = true
  /\ string_values [("protocol_id", VBytes (String "255" ""))] = true
  /\ exists s : string,
       (_build_message cfg_production FederatedProtocolNotFound VNone
                       [("protocol_id", VBytes (String "255" ""))]
        = Ok (VText s)
        /\ Error___init__ cfg_production FederatedProtocolNotFound VNone
                          [("protocol_id", VBytes (String "255" ""))] []
           = (Ok {| kind_of := FederatedProtocolNotFound;
                    message := VText s |}, []))
       \/ (message_format FederatedProtocolNotFound = VText s
           /\ s <> ""
           /\ Error___init__ cfg_production FederatedProtocolNotFound VNone
                             [("protocol_id", VBytes (String "255" ""))] []
              = (Ok {| kind_of := FederatedProtocolNotFound;
                       message := VText s |},
                 ([] ++ [missing_kwargs_warning])%list)).
Proof.
  split; [ reflexivity | split; [ reflexivity | ] ].
  exact (proj1 (proj2 construction_total_on_simple_templates)
           cfg_production FederatedProtocolNotFound VNone
           [("protocol_id", VBytes (String "255" ""))] []
           eq_refl eq_refl eq_refl (or_intror eq_refl)).
Defined.

(** * Further properties of the module *)

(** ** Status codes across the hierarchy *)

(** X1: no class overrides a status it inherits.  When the base class
    has a [code], a subclass has the same [code] and the same [title];
    the two classes without a status are [Error] and [SecurityError],
    and every other class has both. *)
Theorem status_is_inherited_unchanged :
  forall k : kind,
    (forall p : kind,
        parent k = Some p -> code p <> VNone ->
        code k = code p /\ title k = title p)
    /\ (code k = VNone <-> k = Error \/ k = SecurityError)
    /\ (title k = VNone <-> code k = VNone).
Proof.
  intro k. split; [ | split ].
  - intros p Hp Hc.
    destruct k; simpl in Hp; inversion Hp; subst p;
      first [ exfalso; apply Hc; reflexivity | split; reflexivity ].
  - destruct k; vm_compute; split; intro H;
      first [ discriminate H | reflexivity | tauto
            | destruct H as [ H | H ]; discriminate H ].
  - destruct k; vm_compute; split; intro H;
      first [ discriminate H | reflexivity ].
Qed.

Lemma status_is_inherited_unchanged_witness :
  parent MetadataNotFound = Some NotFound
  /\ code NotFound <> VNone
  /\ code MetadataNotFound = code NotFound
  /\ title MetadataNotFound = title NotFound.
Proof.
  split; [ reflexivity | split; [ discriminate | ] ].
  refine (proj1 (status_is_inherited_unchanged MetadataNotFound)
            NotFound eq_refl _).
  discriminate.
Defined.

(** X2: the status code tells the family.  A class has code 404 exactly
    when it derives from [NotFound], 401 exactly when it derives from
    [Unauthorized], 500 exactly when it derives from [UnexpectedError],
    403 exactly when it derives from [Forbidden] or from
    [ForbiddenNotSecurity]; so every 401 and every 500 is a SECURE kind,
    and every 400, 404, 409, 410 and 501 a PLAIN one.  Classes with the
    same code have the same title. *)
Theorem status_code_tells_the_family :
  forall k : kind,
    (code k = VInt 404 <-> issubclass k NotFound = true)
    /\ (code k = VInt 401 <-> issubclass k Unauthorized = true)
    /\ (code k = VInt 500 <-> issubclass k UnexpectedError = true)
    /\ (code k = VInt 403 <->
        issubclass k Forbidden || issubclass k ForbiddenNotSecurity = true)
    /\ (is_SecurityError k = true <->
        k = SecurityError \/ code k = VInt 401 \/ code k = VInt 500
        \/ issubclass k Forbidden = true)
    /\ (forall k' : kind, code k = code k' -> title k = title k').
Proof.
  intro k.
  repeat (split; [ solve [ destruct k; vm_compute; split; intro H;
                           first [ discriminate H | reflexivity ] ] | ]).
  split.
  - destruct k; vm_compute; split; intro H;
      first [ discriminate H | reflexivity | tauto
            | destruct H as [ H | [ H | [ H | H ] ] ]; discriminate H ].
  - assert (Htitle : forall c : kind,
               title c = match code c with
                         | VInt 400 => VText "Bad Request"
                         | VInt 401 => VText "Unauthorized"
                         | VInt 403 => VText "Forbidden"
                         | VInt 404 => VText "Not Found"
                         | VInt 409 => VText "Conflict"
                         | VInt 410 => VText "Gone"
                         | VInt 500 => VText "Internal Server Error"
                         | VInt 501 => VText "Not Implemented"
                         | _ => VNone
                         end).
    { intro c; destruct c; reflexivity. }
    intros k' H. rewrite (Htitle k), (Htitle k'), H. reflexivity.
Qed.

(** ** What rendering a template can raise *)

Lemma conv_d_raises (v : pyval) (e : exn) :
  conv_d v = Raise e -> e = TypeError.
Proof. destruct v; simpl; congruence. Qed.

Lemma well_formed_from_AfterKey (v v' : pyval) (fmt : string) :
  well_formed_from (AfterKey v) fmt = well_formed_from (AfterKey v') fmt.
Proof. destruct fmt; reflexivity. Qed.

Lemma scan_well_formed (kw : kwargs) (fmt : string) :
  forall (st : scan_state) (e : exn),
    well_formed_from st fmt = true ->
    scan kw st fmt = Raise e -> argument_error kw e.
Proof.
  induction fmt as [ | c rest IH ]; intros st e Hw Hs.
  - destruct st; simpl in Hw; discriminate.
  - destruct st as [ | | depth key | v ]; simpl in Hw, Hs.
    + destruct (Ascii.eqb c "%"); [ eapply IH; eassumption | ].
      unfold prepend in Hs.
      destruct (scan kw Literal rest) eqn:Hr; simpl in Hs;
        [ discriminate | ].
      inversion Hs; subst. eapply IH; eassumption.
    + destruct (Ascii.eqb c "%").
      * unfold prepend in Hs.
        destruct (scan kw Literal rest) eqn:Hr; simpl in Hs;
          [ discriminate | ].
        inversion Hs; subst. eapply IH; eassumption.
      * destruct (Ascii.eqb c "("); [ eapply IH; eassumption | discriminate ].
    + destruct (Ascii.eqb c "("); [ eapply IH; eassumption | ].
      destruct (Ascii.eqb c ")"); [ | eapply IH; eassumption ].
      destruct depth as [ | depth' ]; [ | eapply IH; eassumption ].
      destruct (dict_get key kw) as [ v | ] eqn:Hget.
      * rewrite (well_formed_from_AfterKey VNone v) in Hw.
        eapply IH; eassumption.
      * inversion Hs; subst. exact Hget.
    + destruct (Ascii.eqb c "s").
      * simpl in Hw.
        destruct (conv_s v) as [ s | e' ] eqn:Hc; simpl in Hs.
        -- destruct (scan kw Literal rest) eqn:Hr; simpl in Hs;
             [ discriminate | ].
           inversion Hs; subst. eapply IH; eassumption.
        -- inversion Hs; subst.
           rewrite (conv_s_raises _ _ Hc). exact I.
      * simpl in Hw.
        destruct (Ascii.eqb c "d" || Ascii.eqb c "i"); [ | discriminate ].
        destruct (conv_d v) as [ s | e' ] eqn:Hc; simpl in Hs.
        -- destruct (scan kw Literal rest) eqn:Hr; simpl in Hs;
             [ discriminate | ].
           inversion Hs; subst. eapply IH; eassumption.
        -- inversion Hs; subst.
           rewrite (conv_d_raises _ _ Hc). exact I.
Qed.

Lemma templates_well_formed (k : kind) :
  (message_format k = VNone \/ well_formed (message_format k) = true)
  /\ (is_UnexpectedError k = true ->
      well_formed (debug_message_format k) = true).
Proof.
  destruct k; vm_compute; split;
    first [ right; reflexivity | left; reflexivity
          | intro H; first [ reflexivity | discriminate H ] ].
Qed.

(** X3: every template of the module is well formed.  Whatever the
    keyword arguments, rendering a class's [message_format] (or, in the
    [UnexpectedError] family, its [debug_message_format]) on the
    reference runtime fails only on account of the arguments: a
    [KeyError] for a name that is not supplied, a [TypeError] (a value
    that is not a number under [%d] or [%i]; no template at all), or a
    [UnicodeDecodeError] - never on account of the template's syntax. *)
Theorem templates_fail_only_on_their_arguments :
  forall (k : kind) (kw : kwargs) (e : exn),
    (percent (message_format k) kw = Raise e -> argument_error kw e)
    /\ (is_UnexpectedError k = true ->
        percent (debug_message_format k) kw = Raise e ->
        argument_error kw e).
Proof.
  intros k kw e.
  destruct (templates_well_formed k) as [ Hm Hd ].
  assert (H : forall tmpl, well_formed tmpl = true ->
                           percent tmpl kw = Raise e -> argument_error kw e).
  { intros tmpl Hw Hp. destruct tmpl as [ | t | | | ]; try discriminate Hw.
    simpl in Hp. destruct (scan kw Literal t) eqn:Hs; simpl in Hp;
      [ discriminate | ].
    inversion Hp; subst. exact (scan_well_formed kw t Literal e Hw Hs). }
  split.
  - destruct Hm as [ Hnone | Hw ]; [ | apply H; exact Hw ].
    rewrite Hnone. simpl. intro Hp. inversion Hp. exact I.
  - intros Hu. apply H. apply Hd. exact Hu.
Qed.

Lemma templates_fail_only_on_their_arguments_witness :
  is_UnexpectedError MappedGroupNotFound = true
  /\ percent (debug_message_format MappedGroupNotFound)
             [("group_id", VText "g1")]
     = Raise (KeyError "mapping_id")
  /\ argument_error [("group_id", VText "g1")] (KeyError "mapping_id").
Proof.
  split; [ reflexivity | split; [ reflexivity | ] ].
  exact (proj2 (templates_fail_only_on_their_arguments MappedGroupNotFound
                  [("group_id", VText "g1")] (KeyError "mapping_id"))
           eq_refl eq_refl).
Defined.

(** ** Decoding failures never leave the formatter *)

Lemma dict_get_text (kw : kwargs) (key : string) (v : pyval) :
  text_values kw = true -> dict_get key kw = Some v -> is_text v = true.
Proof. exact (dict_get_forallb is_text kw key v). Qed.

(** With text values only, [%] has nothing to decode. *)
Lemma scan_text_values (kw : kwargs) (fmt : string) :
  text_values kw = true ->
  forall st : scan_state,
    match st with
    | AfterKey v => is_text v = true
    | _ => True
    end ->
    scan kw st fmt <> Raise UnicodeDecodeError.
Proof.
  intro Ht. induction fmt as [ | c rest IH ]; intros st Hst.
  - destruct st; simpl; discriminate.
  - destruct st as [ | | depth key | v ]; simpl.
    + destruct (Ascii.eqb c "%"); [ apply IH; exact I | ].
      unfold prepend. specialize (IH Literal I).
      destruct (scan kw Literal rest); simpl; congruence.
    + destruct (Ascii.eqb c "%").
      * unfold prepend. specialize (IH Literal I).
        destruct (scan kw Literal rest); simpl; congruence.
      * destruct (Ascii.eqb c "("); [ apply IH; exact I | discriminate ].
    + destruct (Ascii.eqb c "("); [ apply IH; exact I | ].
      destruct (Ascii.eqb c ")"); [ | apply IH; exact I ].
      destruct depth as [ | depth' ]; [ | apply IH; exact I ].
      destruct (dict_get key kw) as [ v | ] eqn:Hget; [ | discriminate ].
      apply IH. exact (dict_get_text kw key v Ht Hget).
    + specialize (IH Literal I).
      destruct v; try discriminate Hst; simpl.
      destruct (Ascii.eqb c "s"); simpl.
      * destruct (scan kw Literal rest); simpl; congruence.
      * destruct (Ascii.eqb c "d" || Ascii.eqb c "i"); simpl; discriminate.
Qed.

(** What [safe_decode] lets through is text. *)
Lemma safe_decode_items_text (kw kw' : kwargs) :
  safe_decode_items kw = Ok kw' -> text_values kw' = true.
Proof.
  revert kw'. induction kw as [ | [k v] kw IH ]; simpl; intros kw' H.
  - inversion H; reflexivity.
  - destruct (reference_safe_decode v) as [ v' | ] eqn:Hv; simpl in H;
      [ | discriminate ].
    destruct (safe_decode_items kw) as [ rest | ]; simpl in H;
      [ | discriminate ].
    inversion H; subst kw'. simpl. rewrite (IH rest eq_refl), andb_true_r.
    destruct v; simpl in Hv; try discriminate.
    + inversion Hv; reflexivity.
    + unfold decode in Hv.
      destruct (is_ascii (bytes_of b)); simpl in Hv;
        [ inversion Hv; reflexivity | ].
      destruct (utf8_valid (bytes_of b)); simpl in Hv;
        [ inversion Hv; reflexivity | discriminate ].
Qed.

Lemma _format_with_unicode_kwargs_no_decode_error (t : string)
    (kw : kwargs) :
  _format_with_unicode_kwargs (VText t) kw <> Raise UnicodeDecodeError.
Proof.
  unfold _format_with_unicode_kwargs. simpl.
  destruct (scan kw Literal t) as [ s | e ] eqn:Hs; simpl;
    [ discriminate | ].
  destruct e; try discriminate.
  destruct (safe_decode_items kw) as [ kw' | e' ] eqn:Hd.
  - pose proof (scan_text_values kw' t (safe_decode_items_text kw kw' Hd)
                  Literal I) as Hno.
    destruct (scan kw' Literal t); simpl; congruence.
  - destruct e'; discriminate.
Qed.

Lemma _format_with_unicode_kwargs_text (t : string) (kw : kwargs)
    (v : pyval) :
  _format_with_unicode_kwargs (VText t) kw = Ok v -> is_text v = true.
Proof.
  unfold _format_with_unicode_kwargs. simpl.
  destruct (scan kw Literal t) as [ s | e ]; simpl.
  - intro H; inversion H; reflexivity.
  - destruct e; try discriminate.
    destruct (safe_decode_items kw) as [ kw' | e' ].
    + destruct (scan kw' Literal t); simpl; intro H; inversion H; reflexivity.
    + destruct e'; try discriminate. intro H; inversion H; reflexivity.
Qed.

(** X4: on the reference runtime the formatter absorbs every
    [UnicodeDecodeError]: for a text template and any keyword arguments
    it never raises one (it renders after decoding, returns the raw
    template, or raises something else), and so no construction without
    an explicit message raises one, for any kind and configuration. *)
Theorem decoding_errors_never_leave_the_formatter :
  forall (t : string) (kw : kwargs),
    _format_with_unicode_kwargs (VText t) kw <> Raise UnicodeDecodeError
    /\ forall (cfg : config) (k : kind) (m : pyval) (lg : log),
         truthy m = false ->
         fst (Error___init__ cfg k m kw lg) <> Raise UnicodeDecodeError.
Proof.
  intros t kw.
  split; [ apply _format_with_unicode_kwargs_no_decode_error | ].
  intros cfg k m lg Hm.
  assert (Hfmt : forall tmpl kw0,
             _format_with_unicode_kwargs tmpl kw0
             <> Raise UnicodeDecodeError).
  { intros tmpl kw0. destruct tmpl as [ | t0 | | | ];
      first [ apply _format_with_unicode_kwargs_no_decode_error
            | discriminate ]. }
  assert (Hb : _build_message cfg k m kw <> Raise UnicodeDecodeError).
  { rewrite _build_message_without_message by exact Hm.
    destruct (is_UnexpectedError k) eqn:Hu; [ | apply Hfmt ].
    unfold SecurityError__build_message.
    destruct (truthy (debug_message_format k) && insecure_debug cfg);
      [ | apply Hfmt ].
    destruct (UnexpectedError_debug_message_format k Hu) as [ _ Htr ].
    destruct (debug_message_format k) as [ | d | | | ] eqn:Hd;
      cbn [string_types reference_runtime reference_string_types].
    - discriminate Htr.
    - pose proof (_format_with_unicode_kwargs_no_decode_error
                    d (effective_kwargs k kw)) as Hno.
      pose proof (_format_with_unicode_kwargs_text
                    d (effective_kwargs k kw)) as Htext.
      destruct (_format_with_unicode_kwargs (VText d) (effective_kwargs k kw))
        as [ v | e ]; cbn [bind]; [ | congruence ].
      specialize (Htext v eq_refl).
      destruct v as [ | s | b | z | x ]; discriminate.
    - exfalso. clear - Hu Hd. destruct k; discriminate.
    - exfalso. clear - Hu Hd. destruct k; discriminate.
    - exfalso. clear - Hu Hd. destruct k; discriminate.
  }
  unfold Error___init__.
  destruct (_build_message cfg k m kw) as [ v | e ]; simpl;
    [ discriminate | ].
  destruct e; try discriminate; try congruence.
  destruct (_FATAL_EXCEPTION_FORMAT_ERRORS cfg); simpl; discriminate.
Qed.

Lemma decoding_errors_never_leave_the_formatter_witness :
  truthy VNone = false
  /\ percent (message_format EndpointNotFound)
             [("endpoint_id", VBytes (String "255" ""))]
     = Raise UnicodeDecodeError
  /\ fst (Error___init__ cfg_strict EndpointNotFound VNone
                         [("endpoint_id", VBytes (String "255" ""))] [])
     <> Raise UnicodeDecodeError.
Proof.
  split; [ reflexivity | split; [ reflexivity | ] ].
  exact (proj2 (decoding_errors_never_leave_the_formatter
                  "" [("endpoint_id", VBytes (String "255" ""))])
           cfg_strict EndpointNotFound VNone [] eq_refl).
Defined.

Lemma safe_decode_items_non_strings (kw : kwargs) :
  string_values kw = false ->
  safe_decode_items kw = Raise TypeError
  \/ safe_decode_items kw = Raise UnicodeDecodeError.
Proof.
  induction kw as [ | [k v] kw IH ]; simpl; intro H; [ discriminate | ].
  destruct v; simpl in *; auto.
  - destruct (IH H) as [ -> | -> ]; auto.
  - unfold decode.
    destruct (is_ascii (bytes_of b)); simpl;
      [ destruct (IH H) as [ -> | -> ]; auto | ].
    destruct (utf8_valid (bytes_of b)); simpl;
      [ destruct (IH H) as [ -> | -> ]; auto | auto ].
Qed.

(** X5: the second substitution needs every value to be a string.  On
    the reference runtime, when the first substitution raises
    [UnicodeDecodeError] and some keyword argument is neither text nor a
    byte string (an integer, [None], an exception), nothing is rendered:
    the formatter raises [TypeError] out of [safe_decode], or, when an
    undecodable byte string comes first in the dictionary, returns the
    raw template; a construction that renders this template raises
    [TypeError] or carries the raw template, without a warning. *)
Theorem non_string_value_blocks_the_second_substitution :
  forall (t : string) (kw : kwargs),
    percent (VText t) kw = Raise UnicodeDecodeError ->
    string_values kw = false ->
    (_format_with_unicode_kwargs (VText t) kw = Raise TypeError
     \/ _format_with_unicode_kwargs (VText t) kw = Ok (VText t))
    /\ forall (cfg : config) (k : kind) (m : pyval) (lg : log),
         truthy m = false ->
         is_UnexpectedError k = false ->
         message_format k = VText t ->
         Error___init__ cfg k m kw lg = (Raise TypeError, lg)
         \/ Error___init__ cfg k m kw lg
            = (Ok {| kind_of := k; message := VText t |}, lg).
Proof.
  intros t kw Hp Hs.
  assert (H : _format_with_unicode_kwargs (VText t) kw = Raise TypeError
              \/ _format_with_unicode_kwargs (VText t) kw = Ok (VText t)).
  { unfold _format_with_unicode_kwargs. rewrite Hp.
    destruct (safe_decode_items_non_strings kw Hs) as [ -> | -> ]; auto. }
  split; [ exact H | ].
  intros cfg k m lg Hm Hu Hk. unfold Error___init__.
  rewrite _build_message_without_message by exact Hm.
  rewrite Hu, Hk.
  destruct H as [ -> | -> ]; auto.
Qed.

Lemma non_string_value_blocks_the_second_substitution_witness :
  percent (VText "Could not find: %(target)s")
          [("hint", VInt 3);
           ("target", VBytes (String "195" (String "169" "")))]
  = Raise UnicodeDecodeError
  /\ string_values [("hint", VInt 3);
                    ("target", VBytes (String "195" (String "169" "")))]
     = false
  /\ (Error___init__ cfg_production NotFound VNone
        [("hint", VInt 3);
         ("target", VBytes (String "195" (String "169" "")))] []
      = (Raise TypeError, [])
      \/ Error___init__ cfg_production NotFound VNone
           [("hint", VInt 3);
            ("target", VBytes (String "195" (String "169" "")))] []
         = (Ok {| kind_of := NotFound;
                  message := VText "Could not find: %(target)s" |}, [])).
Proof.
  split; [ reflexivity | split; [ reflexivity | ] ].
  exact (proj2 (non_string_value_blocks_the_second_substitution
                  "Could not find: %(target)s"
                  [("hint", VInt 3);
                   ("target", VBytes (String "195" (String "169" "")))]
                  eq_refl eq_refl)
           cfg_production NotFound VNone [] eq_refl eq_refl eq_refl).
Defined.

(** ** Who reads the disclosure override *)

(** X6: a PLAIN kind never reads [insecure_debug]: under two
    configurations that agree on [_FATAL_EXCEPTION_FORMAT_ERRORS],
    construction gives the same instance, exception and log. *)
Theorem plain_kinds_do_not_read_insecure_debug :
  forall (R : Runtime) (cfg cfg' : config) (k : kind) (m : pyval)
         (kw : kwargs) (lg : log),
    is_SecurityError k = false ->
    _FATAL_EXCEPTION_FORMAT_ERRORS cfg = _FATAL_EXCEPTION_FORMAT_ERRORS cfg' ->
    Error___init__ cfg k m kw lg = Error___init__ cfg' k m kw lg.
Proof.
  intros R cfg cfg' k m kw lg Hs Hf. unfold Error___init__.
  rewrite (_build_message_plain cfg k m kw Hs).
  rewrite (_build_message_plain cfg' k m kw Hs).
  rewrite Hf. reflexivity.
Qed.

Lemma plain_kinds_do_not_read_insecure_debug_witness :
  is_SecurityError RegionDeletionError = false
  /\ Error___init__ cfg_production RegionDeletionError VNone
                    [("region_id", VText "r1")] []
     = Error___init__ cfg_insecure_debug RegionDeletionError VNone
                      [("region_id", VText "r1")] [].
Proof.
  split; [ reflexivity | ].
  exact (plain_kinds_do_not_read_insecure_debug reference_runtime
           cfg_production cfg_insecure_debug RegionDeletionError VNone
           [("region_id", VText "r1")] [] eq_refl eq_refl).
Defined.

Lemma generic_UnexpectedError_text (k : kind) :
  is_UnexpectedError k = true ->
  k <> DirectMappingError ->
  message_format k
  = VText ("An unexpected error prevented the server "
           ++ "from fulfilling your request.").
Proof.
  destruct k; intros Hu Hk;
    first [ discriminate Hu | reflexivity | exfalso; apply Hk; reflexivity ].
Qed.

(** X7: a SECURE kind whose [message_format] has no placeholder gives
    nothing away when [insecure_debug] is off: whatever explicit message
    and whatever keyword arguments it is constructed with - of any type,
    decodable or not - the message is exactly its fixed text, nothing is
    logged and nothing is raised, in strict mode too.  Every kind of the
    [UnexpectedError] family except [DirectMappingError] is such a kind,
    with the one generic text. *)
Theorem fixed_text_kinds_disclose_nothing :
  (forall (cfg : config) (k : kind) (t : string) (m : pyval) (kw : kwargs)
          (lg : log),
      is_SecurityError k = true ->
      insecure_debug cfg = false ->
      message_format k = VText t ->
      contains t "%" = false ->
      Error___init__ cfg k m kw lg
      = (Ok {| kind_of := k; message := VText t |}, lg))
  /\ (forall k : kind,
        is_UnexpectedError k = true ->
        k <> DirectMappingError ->
        message_format k
        = VText ("An unexpected error prevented the server "
                 ++ "from fulfilling your request."))
  /\ contains ("An unexpected error prevented the server "
               ++ "from fulfilling your request.") "%" = false.
Proof.
  split; [ | split; [ exact generic_UnexpectedError_text | reflexivity ] ].
  intros cfg k t m kw lg Hs Hd Ht Hp. unfold Error___init__.
  rewrite _build_message_secure_production by assumption.
  rewrite Ht, (_format_with_unicode_kwargs_verbatim _ t Hp). reflexivity.
Qed.

Lemma fixed_text_kinds_disclose_nothing_witness :
  is_SecurityError KeysNotFound = true
  /\ Error___init__ cfg_strict KeysNotFound
       (VText "key repository /etc/keystone/fernet-keys is empty")
       [("path", VBytes (String "255" "")); ("count", VInt 0)] []
     = (Ok {| kind_of := KeysNotFound;
              message :=
                VText ("An unexpected error prevented the server "
                       ++ "from fulfilling your request.") |}, []).
Proof.
  split; [ reflexivity | ].
  exact (proj1 fixed_text_kinds_disclose_nothing cfg_strict KeysNotFound
           _ (VText "key repository /etc/keystone/fernet-keys is empty")
           [("path", VBytes (String "255" "")); ("count", VInt 0)] []
           eq_refl eq_refl eq_refl eq_refl).
Defined.

(** ** Constructing again from a rendered message *)

Lemma Error___init___kind {R : Runtime} (cfg : config) (k : kind)
    (m : pyval) (kw : kwargs) (lg lg' : log) (i : instance) :
  Error___init__ cfg k m kw lg = (Ok i, lg') -> kind_of i = k.
Proof.
  unfold Error___init__.
  destruct (_build_message cfg k m kw) as [ v | e ];
    [ intro H; inversion H; reflexivity | ].
  destruct e; try discriminate.
  destruct (_FATAL_EXCEPTION_FORMAT_ERRORS cfg);
    [ discriminate | intro H; inversion H; reflexivity ].
Qed.

(** X8: a PLAIN instance survives being constructed again from its own
    message, which is what a copy through [cls(message)] does: if
    construction gave an instance whose message is true, constructing
    the same kind from that message alone, under any configuration,
    gives the same instance and logs nothing. *)
Theorem plain_instance_is_rebuilt_from_its_message :
  forall (R : Runtime) (cfg cfg' : config) (k : kind) (m : pyval)
         (kw : kwargs) (lg lg' lg2 : log) (i : instance),
    is_SecurityError k = false ->
    Error___init__ cfg k m kw lg = (Ok i, lg') ->
    truthy (message i) = true ->
    Error___init__ cfg' k (message i) [] lg2 = (Ok i, lg2).
Proof.
  intros R cfg cfg' k m kw lg lg' lg2 i Hs Hi Ht.
  pose proof (Error___init___kind cfg k m kw lg lg' i Hi) as Hk.
  unfold Error___init__.
  rewrite (_build_message_plain cfg' k (message i) [] Hs).
  unfold Error__build_message. rewrite Ht.
  destruct i as [ ki mi ]; simpl in *. rewrite Hk. reflexivity.
Qed.

Lemma plain_instance_is_rebuilt_from_its_message_witness :
  Error___init__ cfg_production TrustNotFound VNone
                 [("trust_id", VText "t-17")] []
  = (Ok {| kind_of := TrustNotFound;
           message := VText "Could not find trust: t-17" |}, [])
  /\ Error___init__ cfg_strict TrustNotFound
                    (VText "Could not find trust: t-17") [] []
     = (Ok {| kind_of := TrustNotFound;
              message := VText "Could not find trust: t-17" |}, []).
Proof.
  split; [ reflexivity | ].
  exact (plain_instance_is_rebuilt_from_its_message reference_runtime
           cfg_production cfg_strict TrustNotFound VNone
           [("trust_id", VText "t-17")] [] [] []
           {| kind_of := TrustNotFound;
              message := VText "Could not find trust: t-17" |}
           eq_refl eq_refl eq_refl).
Defined.

(** The first name a simple template refers to is the first one looked
    up. *)
Lemma scan_first_missing (kw : kwargs) (n : string) (names : list string)
    (fmt : string) :
  dict_get n kw = None ->
  forall st : scan_state,
    match st with
    | AfterKey _ => False
    | _ => True
    end ->
    names_from st fmt = Some (n :: names) ->
    scan kw st fmt = Raise (KeyError n).
Proof.
  intro Hnone. induction fmt as [ | c rest IH ]; intros st Hst Hn.
  - destruct st; simpl in Hn; discriminate.
  - destruct st as [ | | depth key | v ]; simpl in Hn |- *;
      [ | | | contradiction ].
    + destruct (Ascii.eqb c "%"); [ apply IH; [ exact I | exact Hn ] | ].
      rewrite (IH Literal I Hn). reflexivity.
    + destruct (Ascii.eqb c "%"); [ rewrite (IH Literal I Hn); reflexivity | ].
      destruct (Ascii.eqb c "("); [ | discriminate ].
      apply IH; [ exact I | exact Hn ].
    + destruct (Ascii.eqb c "("); [ apply IH; [ exact I | exact Hn ] | ].
      destruct (Ascii.eqb c ")"); [ | apply IH; [ exact I | exact Hn ] ].
      destruct depth as [ | depth' ]; [ | apply IH; [ exact I | exact Hn ] ].
      destruct (names_from (AfterKey VNone) rest); simpl in Hn;
        [ | discriminate ].
      inversion Hn; subst key. rewrite Hnone. reflexivity.
Qed.

Lemma secure_templates_do_not_name_exception (k : kind) (t : string)
    (names : list string) :
  is_SecurityError k = true ->
  message_format k = VText t ->
  placeholders t <> Some ("exception" :: names).
Proof.
  intros Hs Ht Hn.
  destruct k; try discriminate Hs; inversion Ht; subst t;
    vm_compute in Hn; discriminate Hn.
Qed.

(** X9: a SECURE instance does not survive it, as the docstring of
    [__deepcopy__] describes.  With [insecure_debug] off, a SECURE kind
    whose [message_format] names at least one parameter, constructed
    from a message alone (no keyword arguments), drops the message:
    outside strict mode it logs the missing-kwargs warning and carries
    the raw template; in strict mode it raises [KeyError] for the first
    name of the template. *)
Theorem secure_instance_is_not_rebuilt_from_its_message :
  forall (cfg : config) (k : kind) (t : string) (n : string)
         (names : list string) (m : pyval) (lg : log),
    is_SecurityError k = true ->
    insecure_debug cfg = false ->
    message_format k = VText t ->
    placeholders t = Some (n :: names) ->
    Error___init__ cfg k m [] lg
    = if _FATAL_EXCEPTION_FORMAT_ERRORS cfg
      then (Raise (KeyError n), lg)
      else (Ok {| kind_of := k; message := VText t |},
            (lg ++ [missing_kwargs_warning])%list).
Proof.
  intros cfg k t n names m lg Hs Hd Ht Hn.
  assert (Hne : String.eqb "exception" n = false).
  { apply String.eqb_neq. intro Heq; subst n.
    exact (secure_templates_do_not_name_exception k t names Hs Ht Hn). }
  assert (Hget : dict_get n (effective_kwargs k []) = None).
  { unfold effective_kwargs.
    destruct (is_UnexpectedError k); [ | reflexivity ].
    change (dict_get n (setdefault "exception" (VText "") []))
      with (if String.eqb "exception" n then Some (VText "") else None).
    rewrite Hne. reflexivity. }
  rewrite <- Ht.
  apply Error___init___KeyError.
  rewrite _build_message_secure_production by assumption.
  rewrite Ht. unfold _format_with_unicode_kwargs. simpl.
  rewrite (scan_first_missing _ n names t Hget Literal I Hn).
  reflexivity.
Qed.

Lemma secure_instance_is_not_rebuilt_from_its_message_witness :
  placeholders "The account is locked for user: %(user_id)s"
  = Some ["user_id"]
  /\ Error___init__ cfg_production AccountLocked
       (VText "The account is locked for user: 7f3c") [] []
     = (Ok {| kind_of := AccountLocked;
              message :=
                VText "The account is locked for user: %(user_id)s" |},
        [missing_kwargs_warning]).
Proof.
  split; [ reflexivity | ].
  exact (secure_instance_is_not_rebuilt_from_its_message cfg_production
           AccountLocked "The account is locked for user: %(user_id)s"
           "user_id" [] (VText "The account is locked for user: 7f3c") []
           eq_refl eq_refl eq_refl eq_refl).
Defined.

(** ** The [exception] default of [UnexpectedError] *)

Lemma dict_get_app (key : string) (d d' : kwargs) :
  dict_get key (d ++ d')%list
  = match dict_get key d with
    | Some v => Some v
    | None => dict_get key d'
    end.
Proof.
  induction d as [ | [k v] d IH ]; simpl; [ reflexivity | ].
  destruct (String.eqb k key); [ reflexivity | exact IH ].
Qed.

Lemma dict_get_setdefault (key : string) (v : pyval) (d : kwargs) :
  dict_get key (setdefault key v d)
  = Some match dict_get key d with
         | Some x => x
         | None => v
         end.
Proof.
  unfold setdefault. destruct (dict_get key d) as [ x | ] eqn:H.
  - exact H.
  - rewrite dict_get_app, H. simpl. rewrite String.eqb_refl. reflexivity.
Qed.

Lemma append_empty_r (s : string) : s ++ "" = s.
Proof. induction s as [ | c s IH ]; simpl; [ | rewrite IH ]; reflexivity. Qed.

Lemma scan_literal (kw : kwargs) (p rest : string) :
  contains p "%" = false ->
  scan kw Literal (p ++ rest) = (r <- scan kw Literal rest ;; Ok (p ++ r)).
Proof.
  induction p as [ | c p IH ]; intro H.
  - simpl. destruct (scan kw Literal rest); reflexivity.
  - change (contains (String c p) "%")
      with (Ascii.eqb "%" c && true || contains p "%") in H.
    apply orb_false_iff in H as [ Hc Hp ].
    rewrite andb_true_r in Hc.
    change (scan kw Literal (String c p ++ rest))
      with (if Ascii.eqb c "%" then scan kw AfterPercent (p ++ rest)
            else prepend c (scan kw Literal (p ++ rest))).
    rewrite Ascii.eqb_sym, Hc, (IH Hp).
    destruct (scan kw Literal rest); reflexivity.
Qed.

Lemma scan_UnexpectedError_debug_message_format (kw : kwargs) (v : pyval)
    (e : string) :
  dict_get "exception" kw = Some v ->
  conv_s v = Ok e ->
  scan kw Literal
       ("An unexpected error prevented the server "
        ++ "from fulfilling your request: %(exception)s")
  = Ok (("An unexpected error prevented the server "
         ++ "from fulfilling your request: ") ++ e).
Proof.
  intros Hget Hconv.
  change ("An unexpected error prevented the server "
          ++ "from fulfilling your request: %(exception)s")
    with (("An unexpected error prevented the server "
           ++ "from fulfilling your request: ") ++ "%(exception)s").
  rewrite scan_literal by reflexivity.
  cbn [scan Ascii.eqb Bool.eqb snoc append].
  rewrite Hget. cbn [scan Ascii.eqb Bool.eqb]. rewrite Hconv. cbn [bind scan].
  rewrite append_empty_r. reflexivity.
Qed.

Lemma SecurityError__build_message_debug_text (cfg : config) (k : kind)
    (d s : string) (kw : kwargs) :
  insecure_debug cfg = true ->
  truthy (VText d) = true ->
  _format_with_unicode_kwargs (VText d) kw = Ok (VText s) ->
  SecurityError__build_message cfg k (VText d) kw
  = Ok (VText (s ++ " " ++ amendment)).
Proof.
  intros Hd Ht Hf. unfold SecurityError__build_message.
  rewrite Ht, Hd.
  cbn [andb string_types reference_runtime reference_string_types].
  rewrite Hf. cbn [bind].
  change (percent ?f ?a) with (reference_percent f a).
  apply (percent_amendment (VText s) s eq_refl).
Qed.

(** X10: the [exception] default of [UnexpectedError._build_message]
    keeps the detailed template renderable.  Under [insecure_debug],
    with no explicit message, a kind that uses [UnexpectedError]'s own
    [debug_message_format] is constructed without warning whatever other
    keyword arguments it is given: the message is the generic sentence,
    a colon, the rendering of the [exception] argument - empty when none
    is supplied, the supplied one otherwise - and the amendment. *)
Theorem UnexpectedError_defaults_exception_to_empty :
  forall (cfg : config) (k : kind) (m : pyval) (kw : kwargs) (lg : log)
         (e : string),
    insecure_debug cfg = true ->
    is_UnexpectedError k = true ->
    debug_message_format k = debug_message_format UnexpectedError ->
    truthy m = false ->
    conv_s match dict_get "exception" kw with
           | Some v => v
           | None => VText ""
           end = Ok e ->
    Error___init__ cfg k m kw lg
    = (Ok {| kind_of := k;
             message :=
               VText (("An unexpected error prevented the server "
                       ++ "from fulfilling your request: ")
                      ++ e ++ " " ++ amendment) |}, lg).
Proof.
  intros cfg k m kw lg e Hd Hu Hk Hm He. unfold Error___init__.
  rewrite _build_message_without_message by exact Hm.
  rewrite Hu, Hk. unfold effective_kwargs. rewrite Hu.
  assert (Hdm : debug_message_format UnexpectedError
                = VText ("An unexpected error prevented the server "
                         ++ "from fulfilling your request: %(exception)s"))
    by reflexivity.
  rewrite Hdm.
  rewrite (SecurityError__build_message_debug_text cfg k
             ("An unexpected error prevented the server "
              ++ "from fulfilling your request: %(exception)s")
             (("An unexpected error prevented the server "
               ++ "from fulfilling your request: ") ++ e)
             (setdefault "exception" (VText "") kw) Hd eq_refl).
  - reflexivity.
  - unfold _format_with_unicode_kwargs.
    change (percent ?f ?a) with (reference_percent f a).
    unfold reference_percent.
    rewrite (scan_UnexpectedError_debug_message_format _ _ e
               (dict_get_setdefault "exception" (VText "") kw) He).
    reflexivity.
Qed.

Lemma UnexpectedError_defaults_exception_to_empty_witness :
  debug_message_format DirectMappingError
  = debug_message_format UnexpectedError
  /\ Error___init__ cfg_insecure_debug DirectMappingError VNone
       [("mapping_id", VText "m-3")] []
     = (Ok {| kind_of := DirectMappingError;
              message :=
                VText (("An unexpected error prevented the server "
                        ++ "from fulfilling your request: ")
                       ++ "" ++ " " ++ amendment) |}, []).
Proof.
  split; [ reflexivity | ].
  exact (UnexpectedError_defaults_exception_to_empty cfg_insecure_debug
           DirectMappingError VNone [("mapping_id", VText "m-3")] [] ""
           eq_refl eq_refl eq_refl eq_refl eq_refl).
Defined.

(** ** The constructors with a payload *)

Lemma dict_get_dict_remove (key key' : string) (d : kwargs) :
  String.eqb key' key = false ->
  dict_get key (dict_remove key' d) = dict_get key d.
Proof.
  intro Hne. induction d as [ | [k v] d IH ]; simpl; [ reflexivity | ].
  destruct (String.eqb k key') eqn:E.
  - apply String.eqb_eq in E; subst k. rewrite Hne. exact IH.
  - simpl. rewrite IH. reflexivity.
Qed.

Lemma bind_optional_other_key (name key : string) (args : list pyval)
    (kw kw' : kwargs) (v : pyval) :
  String.eqb name key = false ->
  bind_optional name args kw = Ok (v, kw') ->
  dict_get key kw' = dict_get key kw.
Proof.
  intros Hne H. unfold bind_optional in H.
  destruct args as [ | a [ | b rest ] ]; [ | | discriminate ].
  - destruct (dict_get name kw); inversion H; subst;
      [ apply dict_get_dict_remove; exact Hne | reflexivity ].
  - destruct (dict_get name kw); [ discriminate | ].
    inversion H; subst; reflexivity.
Qed.

Lemma dict_remove_absent (key : string) (d : kwargs) :
  dict_get key d = None -> dict_remove key d = d.
Proof.
  induction d as [ | [k v] d IH ]; simpl; [ reflexivity | ].
  destruct (String.eqb k key); [ discriminate | ].
  intro H. rewrite (IH H). reflexivity.
Qed.

Section Construct.
Context {R : Runtime}.
Variable auth_methods : list string.
Variables (cfg : config) (k : kind) (args : list pyval) (kw : kwargs)
          (lg : log).

(** Which [__init__] a class has, by its place in the hierarchy. *)
Lemma getattr___init__ :
  getattr own___init__ k
  = Some (if kind_eq_dec k AdditionalAuthRequired
          then InitAdditionalAuthRequired
          else if kind_eq_dec k AuthMethodNotSupported
               then InitAuthMethodNotSupported
               else if kind_eq_dec k AuthPluginException
                    then InitAuthPluginException
                    else InitError).
Proof. destruct k; reflexivity. Qed.

Lemma AuthPluginException_subclasses :
  issubclass k AuthPluginException = true
  <-> k = AuthPluginException \/ k = AuthMethodNotSupported
      \/ k = AdditionalAuthRequired.
Proof.
  destruct k; vm_compute; split; intro H;
    first [ discriminate H | reflexivity | tauto
          | destruct H as [ H | [ H | H ] ]; discriminate H ].
Qed.

End Construct.

Section ConstructLog.
Context {R : Runtime}.
Variable auth_methods : list string.

Lemma Error___init___log (cfg : config) (k : kind) (m : pyval)
    (kw : kwargs) (lg lg' : log) (r : outcome instance) :
  Error___init__ cfg k m kw lg = (r, lg') ->
  lg' = lg
  \/ (lg' = (lg ++ [missing_kwargs_warning])%list
      /\ _FATAL_EXCEPTION_FORMAT_ERRORS cfg = false
      /\ r = Ok {| kind_of := k; message := message_format k |}).
Proof.
  unfold Error___init__.
  destruct (_build_message cfg k m kw) as [ v | e ];
    [ intro H; inversion H; left; reflexivity | ].
  destruct e; try (intro H; inversion H; left; reflexivity).
  destruct (_FATAL_EXCEPTION_FORMAT_ERRORS cfg);
    intro H; inversion H; [ left | right ]; auto.
Qed.

Lemma call_Error___init___log (cfg : config) (k : kind)
    (args : list pyval) (kw : kwargs) (lg lg' : log)
    (r : outcome instance) :
  call_Error___init__ cfg k args kw lg = (r, lg') ->
  lg' = lg
  \/ (lg' = (lg ++ [missing_kwargs_warning])%list
      /\ _FATAL_EXCEPTION_FORMAT_ERRORS cfg = false
      /\ r = Ok {| kind_of := k; message := message_format k |}).
Proof.
  unfold call_Error___init__.
  destruct (bind_optional "message" args kw) as [ [m kw'] | e ].
  - apply Error___init___log.
  - intro H; inversion H; left; reflexivity.
Qed.

Lemma call_Error___init___kind (cfg : config) (k : kind)
    (args : list pyval) (kw : kwargs) (lg lg' : log) (i : instance) :
  call_Error___init__ cfg k args kw lg = (Ok i, lg') -> kind_of i = k.
Proof.
  unfold call_Error___init__.
  destruct (bind_optional "message" args kw) as [ [m kw'] | e ];
    [ apply Error___init___kind | discriminate ].
Qed.

(** What each constructor adds to [Error.__init__]: a payload on
    success, and nothing else. *)
Lemma construct_unfolded (cfg : config) (k : kind) (args : list pyval)
    (kw : kwargs) (lg : log) :
  k <> AdditionalAuthRequired ->
  construct auth_methods cfg k args kw lg
  = match call_Error___init__ cfg k args kw lg with
    | (Ok i, lg') =>
        (Ok {| error := i;
               authentication :=
                 if kind_eq_dec k AuthMethodNotSupported
                 then Some (MethodsPayload auth_methods)
                 else if kind_eq_dec k AuthPluginException
                      then Some EmptyPayload
                      else None |}, lg')
    | (Raise e, lg') => (Raise e, lg')
    end.
Proof.
  intro Hk. unfold construct. rewrite getattr___init__.
  destruct (kind_eq_dec k AdditionalAuthRequired) as [ Heq | _ ];
    [ contradiction | ].
  destruct (kind_eq_dec k AuthMethodNotSupported) as [ _ | _ ].
  - unfold AuthMethodNotSupported___init__, AuthPluginException___init__.
    destruct (call_Error___init__ cfg k args kw lg) as [ [ i | e ] lg' ];
      reflexivity.
  - destruct (kind_eq_dec k AuthPluginException) as [ _ | _ ].
    + unfold AuthPluginException___init__.
      destruct (call_Error___init__ cfg k args kw lg) as [ [ i | e ] lg' ];
        reflexivity.
    + destruct (call_Error___init__ cfg k args kw lg) as [ [ i | e ] lg' ];
        reflexivity.
Qed.

Lemma construct_AdditionalAuthRequired (cfg : config) (args : list pyval)
    (kw : kwargs) (lg : log) :
  construct auth_methods cfg AdditionalAuthRequired args kw lg
  = match bind_optional "auth_response" args kw with
    | Raise e => (Raise e, lg)
    | Ok (auth_response, kw') =>
        match dict_get "message" kw with
        | Some _ => (Raise TypeError, lg)
        | None =>
            match Error___init__ cfg AdditionalAuthRequired VNone kw' lg with
            | (Ok i, lg') =>
                (Ok {| error := i;
                       authentication :=
                         Some (ResponsePayload auth_response) |}, lg')
            | (Raise e, lg') => (Raise e, lg')
            end
        end
    end.
Proof.
  unfold construct. rewrite getattr___init__.
  destruct (kind_eq_dec AdditionalAuthRequired AdditionalAuthRequired)
    as [ _ | Hne ]; [ | contradiction Hne; reflexivity ].
  unfold AdditionalAuthRequired___init__.
  destruct (bind_optional "auth_response" args kw) as [ [r kw'] | e ] eqn:Hb;
    [ | reflexivity ].
  rewrite (bind_optional_other_key "auth_response" "message" args kw kw' r
             eq_refl Hb).
  destruct (dict_get "message" kw) as [ x | ] eqn:Hm; [ reflexivity | ].
  assert (Hm' : dict_get "message" kw' = None).
  { rewrite (bind_optional_other_key "auth_response" "message" args kw kw' r
               eq_refl Hb). exact Hm. }
  unfold AuthPluginException___init__, call_Error___init__.
  change (bind_optional "message" [] (("message", VNone) :: kw'))
    with (Ok (VNone, dict_remove "message" kw')).
  rewrite (dict_remove_absent "message" kw' Hm').
  destruct (Error___init__ cfg AdditionalAuthRequired VNone kw' lg)
    as [ [ i | e ] lg' ]; reflexivity.
Qed.

End ConstructLog.

(** X11: [AdditionalAuthRequired] cannot be given a message.  Its first
    positional argument is [auth_response]; a [message] keyword makes
    the call of the parent's [__init__] a [TypeError]; otherwise, on the
    reference runtime, under every configuration - [insecure_debug]
    included - and whatever the other keyword arguments, the message is
    the fixed text, nothing is logged, and [authentication] is the
    caller's [auth_response] ([None] when not given). *)
Theorem AdditionalAuthRequired_takes_no_message :
  forall (auth_methods : list string) (cfg : config) (args : list pyval)
         (kw : kwargs) (lg : log),
    construct auth_methods cfg AdditionalAuthRequired args kw lg
    = match bind_optional "auth_response" args kw with
      | Raise e => (Raise e, lg)
      | Ok (auth_response, _) =>
          match dict_get "message" kw with
          | Some _ => (Raise TypeError, lg)
          | None =>
              (Ok {| error :=
                       {| kind_of := AdditionalAuthRequired;
                          message :=
                            VText
                              "Additional authentications steps required." |};
                     authentication :=
                       Some (ResponsePayload auth_response) |}, lg)
          end
      end.
Proof.
  intros auth_methods cfg args kw lg.
  rewrite construct_AdditionalAuthRequired.
  destruct (bind_optional "auth_response" args kw) as [ [r kw'] | e ];
    [ | reflexivity ].
  destruct (dict_get "message" kw); [ reflexivity | ].
  unfold Error___init__.
  rewrite (_build_message_without_message cfg AdditionalAuthRequired
             VNone kw' eq_refl).
  change (is_UnexpectedError AdditionalAuthRequired) with false. cbv iota.
  change (message_format AdditionalAuthRequired)
    with (VText "Additional authentications steps required.").
  rewrite (_format_with_unicode_kwargs_verbatim kw'
             "Additional authentications steps required." eq_refl).
  reflexivity.
Qed.

(** X12: the [authentication] payload is attached by the classes
    deriving from [AuthPluginException], by them only, and only to an
    object that was constructed: [{}] by [AuthPluginException],
    [{'methods': CONF.auth.methods}] by [AuthMethodNotSupported].  Apart
    from [AdditionalAuthRequired], a constructor changes neither the
    instance nor the log that [Error.__init__] produces for the same
    arguments. *)
Theorem payload_is_attached_by_plugin_errors_only :
  forall (R : Runtime) (auth_methods : list string) (cfg : config)
         (k : kind) (args : list pyval) (kw : kwargs) (lg lg' : log)
         (o : error_object),
    construct auth_methods cfg k args kw lg = (Ok o, lg') ->
    kind_of (error o) = k
    /\ (authentication o <> None <-> issubclass k AuthPluginException = true)
    /\ (k = AuthPluginException -> authentication o = Some EmptyPayload)
    /\ (k = AuthMethodNotSupported ->
        authentication o = Some (MethodsPayload auth_methods))
    /\ (k <> AdditionalAuthRequired ->
        call_Error___init__ cfg k args kw lg = (Ok (error o), lg')).
Proof.
  intros R auth_methods cfg k args kw lg lg' o H.
  destruct (kind_eq_dec k AdditionalAuthRequired) as [ -> | Hk ].
  - rewrite construct_AdditionalAuthRequired in H.
    destruct (bind_optional "auth_response" args kw) as [ [r kw'] | e ];
      [ | discriminate ].
    destruct (dict_get "message" kw); [ discriminate | ].
    destruct (Error___init__ cfg AdditionalAuthRequired VNone kw' lg)
      as [ [ i | e ] lg1 ] eqn:Hi; [ | discriminate ].
    inversion H; subst; simpl.
    split; [ exact (Error___init___kind _ _ _ _ _ _ _ Hi) | ].
    split; [ split; [ reflexivity | discriminate ] | ].
    split; [ discriminate | ].
    split; [ discriminate | intro Hne; contradiction Hne; reflexivity ].
  - rewrite (construct_unfolded auth_methods cfg k args kw lg Hk) in H.
    destruct (call_Error___init__ cfg k args kw lg) as [ [ i | e ] lg1 ] eqn:Hi;
      [ | discriminate ].
    inversion H; subst; simpl.
    split; [ exact (call_Error___init___kind _ _ _ _ _ _ _ Hi) | ].
    split.
    + rewrite (AuthPluginException_subclasses k).
      destruct (kind_eq_dec k AuthMethodNotSupported) as [ -> | H1 ];
        [ split; [ tauto | discriminate ] | ].
      destruct (kind_eq_dec k AuthPluginException) as [ -> | H2 ];
        [ split; [ tauto | discriminate ] | ].
      split; [ intro Hn; contradiction Hn; reflexivity | tauto ].
    + split; [ | split; [ | reflexivity ] ].
      * intros ->. reflexivity.
      * intros ->. reflexivity.
Qed.

Lemma payload_is_attached_by_plugin_errors_only_witness :
  construct ["password"; "token"] cfg_production AuthMethodNotSupported
            [] [] []
  = (Ok {| error :=
             {| kind_of := AuthMethodNotSupported;
                message :=
                  VText ("Attempted to authenticate with an "
                         ++ "unsupported method.") |};
           authentication := Some (MethodsPayload ["password"; "token"]) |},
     [])
  /\ authentication
       {| error :=
            {| kind_of := AuthMethodNotSupported;
               message :=
                 VText ("Attempted to authenticate with an "
                        ++ "unsupported method.") |};
          authentication := Some (MethodsPayload ["password"; "token"]) |}
     = Some (MethodsPayload ["password"; "token"]).
Proof.
  split; [ reflexivity | ].
  exact (proj1 (proj2 (proj2 (proj2
           (payload_is_attached_by_plugin_errors_only reference_runtime
              ["password"; "token"] cfg_production AuthMethodNotSupported
              [] [] [] [] _ eq_refl))))
           eq_refl).
Defined.

(** X13: a constructor logs only together with the fallback.  For every
    class and arguments the log afterwards is the log before, or the log
    before with the one missing-kwargs warning appended; the latter only
    outside strict mode and only when the object was constructed with
    the class's raw [message_format] as message.  A constructor that
    raises logs nothing. *)
Theorem constructors_log_only_with_the_fallback :
  forall (R : Runtime) (auth_methods : list string) (cfg : config)
         (k : kind) (args : list pyval) (kw : kwargs) (lg lg' : log)
         (r : outcome error_object),
    construct auth_methods cfg k args kw lg = (r, lg') ->
    lg' = lg
    \/ (lg' = (lg ++ [missing_kwargs_warning])%list
        /\ _FATAL_EXCEPTION_FORMAT_ERRORS cfg = false
        /\ exists o : error_object,
             r = Ok o
             /\ error o = {| kind_of := k; message := message_format k |}).
Proof.
  intros R auth_methods cfg k args kw lg lg' r H.
  destruct (kind_eq_dec k AdditionalAuthRequired) as [ -> | Hk ].
  - rewrite construct_AdditionalAuthRequired in H.
    destruct (bind_optional "auth_response" args kw) as [ [a kw'] | e ];
      [ | inversion H; left; reflexivity ].
    destruct (dict_get "message" kw); [ inversion H; left; reflexivity | ].
    destruct (Error___init__ cfg AdditionalAuthRequired VNone kw' lg)
      as [ ri lg1 ] eqn:Hi.
    destruct (Error___init___log _ _ _ _ _ _ _ Hi)
      as [ -> | (-> & Hf & ->) ].
    + destruct ri; inversion H; left; reflexivity.
    + inversion H; subst. right.
      split; [ reflexivity | split; [ exact Hf | ] ].
      eexists; split; reflexivity.
  - rewrite (construct_unfolded auth_methods cfg k args kw lg Hk) in H.
    destruct (call_Error___init__ cfg k args kw lg) as [ ri lg1 ] eqn:Hi.
    destruct (call_Error___init___log _ _ _ _ _ _ _ Hi)
      as [ -> | (-> & Hf & ->) ].
    + destruct ri; inversion H; left; reflexivity.
    + inversion H; subst. right.
      split; [ reflexivity | split; [ exact Hf | ] ].
      eexists; split; reflexivity.
Qed.

Lemma constructors_log_only_with_the_fallback_witness :
  construct [] cfg_production MissingGroups [] [] ["earlier record"]
  = (Ok {| error :=
             {| kind_of := MissingGroups;
                message := message_format MissingGroups |};
           authentication := None |},
     ["earlier record"; missing_kwargs_warning])
  /\ (["earlier record"; missing_kwargs_warning] = ["earlier record"]
      \/ (["earlier record"; missing_kwargs_warning]
          = (["earlier record"] ++ [missing_kwargs_warning])%list
          /\ _FATAL_EXCEPTION_FORMAT_ERRORS cfg_production = false
          /\ exists o : error_object,
               Ok {| error :=
                       {| kind_of := MissingGroups;
                          message := message_format MissingGroups |};
                     authentication := None |} = Ok o
               /\ error o = {| kind_of := MissingGroups;
                               message := message_format MissingGroups |})).
Proof.
  split; [ reflexivity | ].
  exact (constructors_log_only_with_the_fallback reference_runtime []
           cfg_production MissingGroups [] [] ["earlier record"] _ _
           eq_refl).
Defined.

(** ** Reading a template piece by piece *)

Lemma snoc_append (acc : string) (c : ascii) (key : string) :
  snoc acc c ++ key = acc ++ String c key.
Proof.
  unfold snoc. induction acc as [ | a acc IH ]; simpl;
    [ | rewrite IH ]; reflexivity.
Qed.

(** A key without parentheses is read up to its closing parenthesis and
    looked up. *)
Lemma scan_in_key (kw : kwargs) (key : string) :
  contains key "(" = false ->
  contains key ")" = false ->
  forall acc rest : string,
    scan kw (InKey 0 acc) (key ++ String ")" rest)
    = match dict_get (acc ++ key) kw with
      | Some v => scan kw (AfterKey v) rest
      | None => Raise (KeyError (acc ++ key))
      end.
Proof.
  induction key as [ | c key IH ]; intros Hopen Hclose acc rest.
  - rewrite append_empty_r. reflexivity.
  - change (contains (String c key) "(")
      with (Ascii.eqb "(" c && true || contains key "(") in Hopen.
    change (contains (String c key) ")")
      with (Ascii.eqb ")" c && true || contains key ")") in Hclose.
    apply orb_false_iff in Hopen as [ Ho Hopen ].
    apply orb_false_iff in Hclose as [ Hc Hclose ].
    rewrite andb_true_r, Ascii.eqb_sym in Ho, Hc.
    change (scan kw (InKey 0 acc) (String c key ++ String ")" rest))
      with (if Ascii.eqb c "("
            then scan kw (InKey 1 (snoc acc c)) (key ++ String ")" rest)
            else if Ascii.eqb c ")"
                 then match dict_get acc kw with
                      | Some v => scan kw (AfterKey v)
                                       (key ++ String ")" rest)
                      | None => Raise (KeyError acc)
                      end
                 else scan kw (InKey 0 (snoc acc c))
                           (key ++ String ")" rest)).
    rewrite Ho, Hc, (IH Hopen Hclose), snoc_append. reflexivity.
Qed.

(** A [%(key)s] directive inserts the rendering of the value of [key]. *)
Lemma scan_directive_s (kw : kwargs) (key rest : string) :
  contains key "(" = false ->
  contains key ")" = false ->
  scan kw Literal ("%(" ++ key ++ ")s" ++ rest)
  = match dict_get key kw with
    | Some v => s <- conv_s v ;; r <- scan kw Literal rest ;; Ok (s ++ r)
    | None => Raise (KeyError key)
    end.
Proof.
  intros Hopen Hclose.
  change (scan kw Literal ("%(" ++ key ++ ")s" ++ rest))
    with (scan kw (InKey 0 "") (key ++ String ")" (String "s" rest))).
  rewrite (scan_in_key kw key Hopen Hclose).
  change ("" ++ key) with key.
  destruct (dict_get key kw); reflexivity.
Qed.

(** ** [MigrationNotProvided] *)

(** X14: [MigrationNotProvided] always supplies both names of its
    template, so on the reference runtime its message is, for arguments
    [%s] accepts, the first argument, " doesn't provide database
    migrations. The migration repository path at ", the second argument
    and " doesn't exist or isn't a directory."; the only failure is a
    [UnicodeDecodeError] for a byte string outside ASCII, which this
    class, unlike [Error], lets through. *)
Theorem MigrationNotProvided_message :
  forall mod_name path : pyval,
    (forall s1 s2 : string,
        conv_s mod_name = Ok s1 -> conv_s path = Ok s2 ->
        MigrationNotProvided___init__ mod_name path
        = Ok (VText (s1 ++ " doesn't provide database migrations. "
                        ++ "The migration repository path at " ++ s2
                        ++ " doesn't exist or isn't a directory.")))
    /\ (forall e : exn,
          MigrationNotProvided___init__ mod_name path = Raise e ->
          e = UnicodeDecodeError
          /\ (renders mod_name = false \/ renders path = false)).
Proof.
  intros mod_name path.
  unfold MigrationNotProvided___init__.
  change (percent ?f ?a) with (reference_percent f a).
  unfold reference_percent.
  change (("%(mod_name)s doesn't provide database migrations. The migration"
           ++ " repository path at %(path)s doesn't exist or isn't a"
           ++ " directory."))
    with ("%(" ++ "mod_name" ++ ")s"
          ++ (" doesn't provide database migrations. "
              ++ "The migration repository path at ")
          ++ "%(" ++ "path" ++ ")s"
          ++ " doesn't exist or isn't a directory." ++ "").
  rewrite scan_directive_s by reflexivity.
  change (dict_get "mod_name" [("mod_name", mod_name); ("path", path)])
    with (Some mod_name).
  cbv iota.
  rewrite scan_literal by reflexivity.
  rewrite scan_directive_s by reflexivity.
  change (dict_get "path" [("mod_name", mod_name); ("path", path)])
    with (Some path).
  cbv iota.
  rewrite scan_literal by reflexivity.
  change (scan ?kw Literal "") with (@Ok string "").
  cbn [bind]. rewrite append_empty_r.
  split.
  - intros s1 s2 H1 H2. rewrite H1, H2. reflexivity.
  - intros e. unfold renders.
    destruct (conv_s mod_name) as [ s1 | e1 ] eqn:H1; cbn [bind].
    + destruct (conv_s path) as [ s2 | e2 ] eqn:H2; cbn [bind];
        [ discriminate | ].
      intro H; inversion H; subst e.
      split; [ exact (conv_s_raises _ _ H2) | right; reflexivity ].
    + intro H; inversion H; subst e.
      split; [ exact (conv_s_raises _ _ H1) | left; reflexivity ].
Qed.

Lemma MigrationNotProvided_message_witness :
  MigrationNotProvided___init__ (VText "keystone.contrib.oauth1")
                                (VBytes "/opt/stack/migrate_repo")
  = Ok (VText ("keystone.contrib.oauth1 doesn't provide database "
               ++ "migrations. The migration repository path at "
               ++ "/opt/stack/migrate_repo doesn't exist or isn't "
               ++ "a directory.")).
Proof.
  exact (proj1 (MigrationNotProvided_message
                  (VText "keystone.contrib.oauth1")
                  (VBytes "/opt/stack/migrate_repo"))
           "keystone.contrib.oauth1" "/opt/stack/migrate_repo"
           eq_refl eq_refl).
Defined.

(** ** Arguments the template does not name *)

Lemma scan_depends_on_names (kw kw' : kwargs) (fmt : string) :
  forall (st : scan_state) (names : list string),
    names_from st fmt = Some names ->
    (forall n : string, In n names -> dict_get n kw = dict_get n kw') ->
    scan kw st fmt = scan kw' st fmt.
Proof.
  induction fmt as [ | c rest IH ]; intros st names Hn Hagree.
  - destruct st; reflexivity.
  - destruct st as [ | | depth key | v ]; simpl in Hn |- *.
    + destruct (Ascii.eqb c "%");
        [ | f_equal ]; eapply IH; eassumption.
    + destruct (Ascii.eqb c "%"); [ f_equal; eapply IH; eassumption | ].
      destruct (Ascii.eqb c "("); [ eapply IH; eassumption | reflexivity ].
    + destruct (Ascii.eqb c "("); [ eapply IH; eassumption | ].
      destruct (Ascii.eqb c ")"); [ | eapply IH; eassumption ].
      destruct depth as [ | depth' ]; [ | eapply IH; eassumption ].
      destruct (names_from (AfterKey VNone) rest) as [ names' | ] eqn:Hrest;
        simpl in Hn; [ | discriminate ].
      inversion Hn; subst names; clear Hn.
      rewrite <- (Hagree key (or_introl eq_refl)).
      destruct (dict_get key kw) as [ v | ]; [ | reflexivity ].
      rewrite (names_from_AfterKey VNone v) in Hrest.
      apply (IH (AfterKey v) names' Hrest).
      intros n Hin. apply Hagree. right. exact Hin.
    + destruct (Ascii.eqb c "s"); [ | discriminate ].
      rewrite (IH Literal names Hn Hagree). reflexivity.
Qed.

Lemma percent_of_renderable (t : string) (kw : kwargs) (names : list string) :
  placeholders t = Some names ->
  renderable kw = true ->
  _format_with_unicode_kwargs (VText t) kw = percent (VText t) kw.
Proof.
  intros Hn Hr. unfold _format_with_unicode_kwargs.
  change (percent ?f ?a) with (reference_percent f a).
  unfold reference_percent.
  destruct (scan_renderable kw t names Hn Hr)
    as [ (_ & s & ->) | (key & _ & _ & ->) ]; reflexivity.
Qed.

(** X15: keyword arguments the template does not name are ignored, as
    long as every value can be rendered.  On the reference runtime, for
    a kind outside the [UnexpectedError] family whose [message_format]
    uses [%(name)s] placeholders, no explicit message, and two
    dictionaries of renderable values that agree on the names of the
    template, construction gives the same instance, the same exception
    and the same log. *)
Theorem unnamed_kwargs_are_ignored :
  forall (cfg : config) (k : kind) (t : string) (names : list string)
         (m : pyval) (kw kw' : kwargs) (lg : log),
    is_UnexpectedError k = false ->
    message_format k = VText t ->
    placeholders t = Some names ->
    truthy m = false ->
    renderable kw = true ->
    renderable kw' = true ->
    (forall n : string, In n names -> dict_get n kw = dict_get n kw') ->
    Error___init__ cfg k m kw lg = Error___init__ cfg k m kw' lg.
Proof.
  intros cfg k t names m kw kw' lg Hu Ht Hn Hm Hr Hr' Hagree.
  unfold Error___init__.
  rewrite 2 _build_message_without_message by exact Hm.
  rewrite Hu, Ht.
  rewrite (percent_of_renderable t kw names Hn Hr).
  rewrite (percent_of_renderable t kw' names Hn Hr').
  change (percent ?f ?a) with (reference_percent f a).
  unfold reference_percent.
  rewrite (scan_depends_on_names kw kw' t Literal names Hn Hagree).
  reflexivity.
Qed.

Lemma unnamed_kwargs_are_ignored_witness :
  Error___init__ cfg_production ForbiddenAction VNone
                 [("action", VText "identity:list_users");
                  ("request_id", VInt 42)] []
  = Error___init__ cfg_production ForbiddenAction VNone
                   [("action", VText "identity:list_users")] [].
Proof.
  refine (unnamed_kwargs_are_ignored cfg_production ForbiddenAction
            ("You are not authorized to perform the"
             ++ " requested action: %(action)s")
            ["action"] VNone
            [("action", VText "identity:list_users");
             ("request_id", VInt 42)]
            [("action", VText "identity:list_users")] []
            eq_refl eq_refl eq_refl eq_refl eq_refl eq_refl _).
  intros n [ <- | [] ]. reflexivity.
Defined.

(** ** An explicit message that names a missing parameter *)

(** X16: under [insecure_debug] an explicit message is disclosed only if
    it can be rendered.  On the reference runtime, for a SECURE kind and
    a non-empty text message of [%(name)s] placeholders whose first name
    is not among the keyword arguments, nothing of the message is kept:
    outside strict mode the instance carries the kind's raw
    [message_format], without the amendment, and the missing-kwargs
    warning is logged; in strict mode [KeyError] is raised for that
    name. *)
Theorem unrenderable_explicit_message_is_not_disclosed :
  forall (cfg : config) (k : kind) (X : string) (n : string)
         (names : list string) (kw : kwargs) (lg : log),
    is_SecurityError k = true ->
    insecure_debug cfg = true ->
    X <> "" ->
    placeholders X = Some (n :: names) ->
    dict_get n (effective_kwargs k kw) = None ->
    Error___init__ cfg k (VText X) kw lg
    = if _FATAL_EXCEPTION_FORMAT_ERRORS cfg
      then (Raise (KeyError n), lg)
      else (Ok {| kind_of := k; message := message_format k |},
            (lg ++ [missing_kwargs_warning])%list).
Proof.
  intros cfg k X n names kw lg Hs Hd HX Hn Hget.
  apply Error___init___KeyError.
  rewrite _build_message_secure_debug
    by (try assumption; apply truthy_text; assumption).
  cbn [string_types reference_runtime reference_string_types].
  unfold _format_with_unicode_kwargs.
  change (percent ?f ?a) with (reference_percent f a).
  unfold reference_percent.
  rewrite (scan_first_missing _ n names X Hget Literal I Hn).
  reflexivity.
Qed.

Lemma unrenderable_explicit_message_is_not_disclosed_witness :
  placeholders "token %(token_id)s revoked at %(time)s"
  = Some ["token_id"; "time"]
  /\ Error___init__ cfg_insecure_debug Unauthorized
       (VText "token %(token_id)s revoked at %(time)s")
       [("time", VText "12:00")] []
     = (Ok {| kind_of := Unauthorized;
              message :=
                VText ("The request you have made requires "
                       ++ "authentication.") |},
        [missing_kwargs_warning]).
Proof.
  split; [ reflexivity | ].
  refine (unrenderable_explicit_message_is_not_disclosed cfg_insecure_debug
            Unauthorized "token %(token_id)s revoked at %(time)s"
            "token_id" ["time"] [("time", VText "12:00")] []
            eq_refl eq_refl _ eq_refl eq_refl).
  discriminate.
Defined.
